(** * Proposer block rewards (packages/beacon-node/src/chain/rewards/blockRewards.ts)

    A shallow embedding of [computeBlockRewards] and of its four
    sub-calculators, and the properties of the reward breakdown.

    Numbers.  The reward values, the effective balances and
    WHISTLEBLOWER_REWARD_QUOTIENT are JavaScript numbers holding integers:
    they are [Z] here.  The two places where the source leaves the integers
    ([syncProposerReward], which it floors, and the quotient
    [balance / WHISTLEBLOWER_REWARD_QUOTIENT], which it floors too) go
    through the rationals [Q] and [Math_floor].  Rounding of IEEE doubles,
    NaN and the infinities are outside the model of the calculators;
    [round_to_double] and [sumInDoubles] say where the sum that makes the
    total is exact.

    Effects.  The pre-state is one mutable object shared by the caller, by
    this module and by [processAttestationsAltair]; an exception leaves the
    object as it was when the exception was thrown.  A computation is
    therefore a function from the state to an outcome and a state. *)

From Stdlib Require Import ZArith QArith Qround List String Bool Lia Permutation.
Import ListNotations.
Open Scope Z_scope.

(** ** JavaScript exceptions and the state-and-exception monad *)

Inductive JsError : Type :=
| Error (message : string).

Inductive Outcome (A : Type) : Type :=
| Ok (a : A)
| Throw (e : JsError).
Arguments Ok {A} a.
Arguments Throw {A} e.

(** ** Data model *)

Definition ValidatorIndex := nat.
Definition Slot := nat.
Definition SubRewardValue := Z.

Inductive ForkName : Type := phase0 | altair | bellatrix | capella | deneb.

Definition ForkName_eqb (a b : ForkName) : bool :=
  match a, b with
  | phase0, phase0 | altair, altair | bellatrix, bellatrix
  | capella, capella | deneb, deneb => true
  | _, _ => false
  end.

(** [ForkSeq] is the numeric enumeration of the forks. *)
Definition ForkSeq := nat.

Module Validator.
Record t : Type := { effectiveBalance : Z }.
End Validator.

(** [state.validators] is an SSZ tree view of an outside library; the
    source only calls [get] on it.  The view is represented by that
    accessor, which may throw. *)
Module ValidatorsView.
Record t : Type := { get : ValidatorIndex -> Outcome Validator.t }.
End ValidatorsView.

Module ChainForkConfig.
Record t : Type := {
  getForkName : Slot -> ForkName;
  getForkSeq : Slot -> ForkSeq
}.
End ChainForkConfig.

Module EpochCache.
Record t : Type := { syncProposerReward : Q }.
End EpochCache.

Module RewardCache.
Record t : Type := { attestations : Z }.
End RewardCache.

(** CachedBeaconStateAllForks: the fields the source reads, and the
    per-validator [balances], which the source leaves alone and which the
    attestation processing of a state transition credits. *)
Module BeaconState.
Record t : Type := {
  config : ChainForkConfig.t;
  validators : ValidatorsView.t;
  balances : list Z;
  epochCtx : EpochCache.t;
  proposerRewards : RewardCache.t
}.

(** The assignment [state.proposerRewards.attestations = v]. *)
Definition set_proposerRewards_attestations (state : t) (v : Z) : t :=
  {| config := config state;
     validators := validators state;
     balances := balances state;
     epochCtx := epochCtx state;
     proposerRewards := {| RewardCache.attestations := v |} |}.

(** A write to [state.balances]. *)
Definition set_balances (state : t) (v : list Z) : t :=
  {| config := config state;
     validators := validators state;
     balances := v;
     epochCtx := epochCtx state;
     proposerRewards := proposerRewards state |}.
End BeaconState.

Module BeaconBlockHeader.
Record t : Type := { slot : Slot; proposerIndex : ValidatorIndex }.
End BeaconBlockHeader.

Module SignedBeaconBlockHeader.
Record t : Type := { message : BeaconBlockHeader.t }.
End SignedBeaconBlockHeader.

Module ProposerSlashing.
Record t : Type := {
  signedHeader1 : SignedBeaconBlockHeader.t;
  signedHeader2 : SignedBeaconBlockHeader.t
}.
End ProposerSlashing.

Module IndexedAttestation.
Record t : Type := { attestingIndices : list ValidatorIndex }.
End IndexedAttestation.

Module AttesterSlashing.
Record t : Type := {
  attestation1 : IndexedAttestation.t;
  attestation2 : IndexedAttestation.t
}.
End AttesterSlashing.

Module Attestation.
Record t : Type := {
  aggregationBits : list bool;
  slot : Slot;
  index : nat
}.
End Attestation.

(** An SSZ bit array is the list of its bits. *)
Module BitArray.
Definition t : Type := list bool.

Fixpoint trueBitIndexesFrom (i : nat) (bits : t) : list nat :=
  match bits with
  | [] => []
  | b :: rest =>
      if b then i :: trueBitIndexesFrom (S i) rest
      else trueBitIndexesFrom (S i) rest
  end.

Definition getTrueBitIndexes (bits : t) : list nat :=
  trueBitIndexesFrom 0 bits.

(** The number of set bits. *)
Definition popcount (bits : t) : nat := count_occ bool_dec bits true.
End BitArray.

Module SyncAggregate.
Record t : Type := { syncCommitteeBits : BitArray.t }.
End SyncAggregate.

Module BeaconBlockBody.
Record t : Type := {
  attestations : list Attestation.t;
  syncAggregate : option SyncAggregate.t; (* undefined on a phase0 body *)
  proposerSlashings : list ProposerSlashing.t;
  attesterSlashings : list AttesterSlashing.t
}.
End BeaconBlockBody.

Module BeaconBlock.
Record t : Type := {
  slot : Slot;
  proposerIndex : ValidatorIndex;
  body : BeaconBlockBody.t
}.
End BeaconBlock.

Module BlockRewards.
Record t : Type := {
  proposerIndex : ValidatorIndex;
  total : SubRewardValue;
  attestations : SubRewardValue;
  syncAggregate : SubRewardValue;
  proposerSlashings : SubRewardValue;
  attesterSlashings : SubRewardValue
}.
End BlockRewards.

(** ** The monad *)

Definition M (A : Type) : Type := BeaconState.t -> Outcome A * BeaconState.t.

Definition ret {A} (a : A) : M A := fun state => (Ok a, state).

Definition bind {A B} (m : M A) (k : A -> M B) : M B :=
  fun state =>
    match m state with
    | (Ok a, state') => k a state'
    | (Throw e, state') => (Throw e, state')
    end.

Definition throw {A} (e : JsError) : M A := fun state => (Throw e, state).

(** Reading a field of the state object. *)
Definition read {A} (f : BeaconState.t -> A) : M A :=
  fun state => (Ok (f state), state).

(** [state.validators.get(index)]: reads the state, may throw. *)
Definition state_validators_get (index : ValidatorIndex) : M Validator.t :=
  fun state => (ValidatorsView.get (BeaconState.validators state) index, state).

Declare Scope js_scope.
Delimit Scope js_scope with js.
Notation "x <- c ;; k" := (bind c (fun x => k))
  (at level 100, c at next level, right associativity) : js_scope.
Notation "c ;;; k" := (bind c (fun _ => k))
  (at level 100, right associativity) : js_scope.
Open Scope js_scope.

(** [for (const x of xs) { acc = body(acc, x) }]. *)
Fixpoint for_of {A B} (xs : list A) (body : B -> A -> M B) (acc : B) : M B :=
  match xs with
  | [] => ret acc
  | x :: rest => acc' <- body acc x ;; for_of rest body acc'
  end.

(** ** Numbers *)

Definition Math_floor (x : Q) : Z := Qfloor x.

(** The JavaScript quotient [a / b] of two integer-valued numbers. *)
Definition js_div (a b : Z) : Q := (inject_Z a / inject_Z b)%Q.

Fixpoint Zsum (l : list Z) : Z :=
  match l with
  | [] => 0
  | x :: rest => x + Zsum rest
  end.

(** *** Doubles

    A JavaScript number is an IEEE 754 binary64 value: 53 significant bits.
    [round_to_double z] is the double nearest to the integer [z], ties
    going to the even significand (overflow, far beyond these values, is
    left out).  The unit in the last place of [z] is [2 ^ (log2 |z| - 52)]
    from [2 ^ 53] on, and 1 below. *)
Definition round_to_double (z : Z) : Z :=
  let m := Z.abs z in
  let ulp := 2 ^ Z.max 0 (Z.log2 m - 52) in
  let q := m / ulp in
  let r := m mod ulp in
  let q' :=
    if 2 * r <? ulp then q
    else if ulp <? 2 * r then q + 1
    else if Z.even q then q else q + 1 in
  Z.sgn z * (q' * ulp).

(** The JavaScript sum [a + b] of two integer-valued numbers: the exact sum,
    rounded to a double. *)
Definition js_add (a b : Z) : Z := round_to_double (a + b).

(** The expression
    [blockAttestationReward + syncAggregateReward
     + blockProposerSlashingReward + blockAttesterSlashingReward]
    as doubles evaluate it, from left to right. *)
Definition sumInDoubles
    (blockAttestationReward syncAggregateReward
     blockProposerSlashingReward blockAttesterSlashingReward : Z) : Z :=
  js_add
    (js_add (js_add blockAttestationReward syncAggregateReward)
       blockProposerSlashingReward)
    blockAttesterSlashingReward.

(** ** Collaborators that are imported by the source *)

Class Collaborators : Type := {
  (** [@lodestar/params] *)
  WHISTLEBLOWER_REWARD_QUOTIENT : Z;
  (** [@lodestar/state-transition]: works on the state object in place *)
  processAttestationsAltair :
    ForkSeq -> BeaconState.t -> list Attestation.t -> bool ->
    Outcome unit * BeaconState.t;
  (** [@lodestar/state-transition] *)
  getAttesterSlashableIndices : AttesterSlashing.t -> list ValidatorIndex
}.

(** ** blockRewards.ts *)

Section BlockRewardsCode.
Context {collab : Collaborators}.

Definition unsupportedForkMessage : string :=
  "Unsupported fork! Block attestation reward calculation is not yet available in phase0".

Definition computeBlockAttestationRewardPhase0 (_block : BeaconBlock.t)
  : M SubRewardValue :=
  throw (Error unsupportedForkMessage).

Definition computeBlockAttestationRewardAltair (block : BeaconBlock.t)
  : M SubRewardValue :=
  fork <- read (fun state =>
    ChainForkConfig.getForkSeq (BeaconState.config state) (BeaconBlock.slot block)) ;;
  let attestations := BeaconBlockBody.attestations (BeaconBlock.body block) in
  (fun state => processAttestationsAltair fork state attestations false) ;;;
  read (fun state => RewardCache.attestations (BeaconState.proposerRewards state)).

Definition computeSyncAggregateReward (block : BeaconBlock.t) : M SubRewardValue :=
  match BeaconBlockBody.syncAggregate (BeaconBlock.body block) with
  | Some syncAggregate =>
      let syncCommitteeBits := SyncAggregate.syncCommitteeBits syncAggregate in
      syncProposerReward <- read (fun state =>
        EpochCache.syncProposerReward (BeaconState.epochCtx state)) ;;
      ret (Z.of_nat (List.length (BitArray.getTrueBitIndexes syncCommitteeBits))
           * Math_floor syncProposerReward)
  | None => ret 0
  end.

Definition computeBlockProposerSlashingReward (block : BeaconBlock.t)
  : M SubRewardValue :=
  for_of (BeaconBlockBody.proposerSlashings (BeaconBlock.body block))
    (fun proposerSlashingReward proposerSlashing =>
       let offendingProposerIndex :=
         BeaconBlockHeader.proposerIndex
           (SignedBeaconBlockHeader.message
              (ProposerSlashing.signedHeader1 proposerSlashing)) in
       validator <- state_validators_get offendingProposerIndex ;;
       let offendingProposerBalance := Validator.effectiveBalance validator in
       ret (proposerSlashingReward
            + Math_floor (js_div offendingProposerBalance
                            WHISTLEBLOWER_REWARD_QUOTIENT)))
    0.

Definition computeBlockAttesterSlashingReward (block : BeaconBlock.t)
  : M SubRewardValue :=
  for_of (BeaconBlockBody.attesterSlashings (BeaconBlock.body block))
    (fun attesterSlashingReward attesterSlashing =>
       for_of (getAttesterSlashableIndices attesterSlashing)
         (fun attesterSlashingReward offendingAttesterIndex =>
            validator <- state_validators_get offendingAttesterIndex ;;
            let offendingAttesterBalance := Validator.effectiveBalance validator in
            ret (attesterSlashingReward
                 + Math_floor (js_div offendingAttesterBalance
                                 WHISTLEBLOWER_REWARD_QUOTIENT)))
         attesterSlashingReward)
    0.

Definition computeBlockRewards (block : BeaconBlock.t) : M BlockRewards.t :=
  fork <- read (fun state =>
    ChainForkConfig.getForkName (BeaconState.config state) (BeaconBlock.slot block)) ;;
  blockAttestationReward <-
    (if ForkName_eqb fork phase0
     then computeBlockAttestationRewardPhase0 block
     else computeBlockAttestationRewardAltair block) ;;
  syncAggregateReward <- computeSyncAggregateReward block ;;
  blockProposerSlashingReward <- computeBlockProposerSlashingReward block ;;
  blockAttesterSlashingReward <- computeBlockAttesterSlashingReward block ;;
  let total :=
    blockAttestationReward + syncAggregateReward
    + blockProposerSlashingReward + blockAttesterSlashingReward in
  ret {| BlockRewards.proposerIndex := BeaconBlock.proposerIndex block;
         BlockRewards.total := total;
         BlockRewards.attestations := blockAttestationReward;
         BlockRewards.syncAggregate := syncAggregateReward;
         BlockRewards.proposerSlashings := blockProposerSlashingReward;
         BlockRewards.attesterSlashings := blockAttesterSlashingReward |}.

End BlockRewardsCode.

(** ** The collaborators as the specification describes them *)

(** The proposer-reward accumulator [state.proposerRewards.attestations]. *)
Definition accumulator (state : BeaconState.t) : Z :=
  RewardCache.attestations (BeaconState.proposerRewards state).

Module SpecModel.

(** [increaseBalance(state, index, delta)] of the state transition: the
    balance of validator [index] grows by [delta]. *)
Fixpoint addAt (balances : list Z) (index : nat) (delta : Z) : list Z :=
  match balances, index with
  | [], _ => []
  | balance :: rest, O => (balance + delta) :: rest
  | balance :: rest, S index' => balance :: addAt rest index' delta
  end.

Definition increaseBalance (state : BeaconState.t) (index : ValidatorIndex)
    (delta : Z) : BeaconState.t :=
  BeaconState.set_balances state (addAt (BeaconState.balances state) index delta).

Section Engine.
(** What the proposer earns for one included attestation. *)
Variable attestationReward : ForkSeq -> BeaconState.t -> Attestation.t -> Z.
(** The proposer of the slot the state is at. *)
Variable beaconProposer : BeaconState.t -> ValidatorIndex.

(** Modelled from the spec: [processAttestationsAltair] of
    @lodestar/state-transition is not part of the source at hand.
    Sections 1, 3, 6 and 9 of the specification: the engine takes
    (forkSeq, state, attestations, flag) and reports the proposer reward
    through the state's accumulator, its sole reward-reporting output,
    which it mutates in place.  Section 9 leaves open whether the engine
    starts each call from a zeroed accumulator; this engine does: it
    assigns to the accumulator what the attestations of the call earn.
    Being the attestation processing of the state-transition engine that
    applies blocks (section 1), it also credits that reward to the balance
    of the proposer.  The attestations are taken as valid (section 7), so
    it raises no error. *)
Definition processAttestationsAltair (fork : ForkSeq) (state : BeaconState.t)
    (attestations : list Attestation.t) (flag : bool)
  : Outcome unit * BeaconState.t :=
  let proposerReward := Zsum (map (attestationReward fork state) attestations) in
  (Ok tt,
   BeaconState.set_proposerRewards_attestations
     (increaseBalance state (beaconProposer state) proposerReward)
     proposerReward).
End Engine.

(** Modelled from the spec: [getAttesterSlashableIndices] of
    @lodestar/state-transition is not part of the source at hand.
    Section 4.5: the slashable indices are those the two conflicting
    attestations have in common. *)
Definition getAttesterSlashableIndices (attesterSlashing : AttesterSlashing.t)
  : list ValidatorIndex :=
  let indices1 :=
    IndexedAttestation.attestingIndices
      (AttesterSlashing.attestation1 attesterSlashing) in
  filter (fun index => existsb (Nat.eqb index) indices1)
    (IndexedAttestation.attestingIndices
       (AttesterSlashing.attestation2 attesterSlashing)).

Definition collaborators (quotient : Z)
    (attestationReward : ForkSeq -> BeaconState.t -> Attestation.t -> Z)
    (beaconProposer : BeaconState.t -> ValidatorIndex)
  : Collaborators :=
  Build_Collaborators quotient
    (processAttestationsAltair attestationReward beaconProposer)
    getAttesterSlashableIndices.

End SpecModel.

(** ** Predicates used by the statements *)

(** Validator [index] of the state has effective balance [balance]. *)
Definition effectiveBalanceOf (state : BeaconState.t) (index : ValidatorIndex)
    (balance : Z) : Prop :=
  exists validator,
    ValidatorsView.get (BeaconState.validators state) index = Ok validator /\
    Validator.effectiveBalance validator = balance.

Definition offendingProposerIndexOf (proposerSlashing : ProposerSlashing.t)
  : ValidatorIndex :=
  BeaconBlockHeader.proposerIndex
    (SignedBeaconBlockHeader.message
       (ProposerSlashing.signedHeader1 proposerSlashing)).



(** A computation that never writes to the state. *)
Definition readonly {A} (m : M A) : Prop := forall state, snd (m state) = state.

(** The body shared by the two slashing loops of the source, on an element
    [x] that names the offending validator [indexOf x]. *)
Definition whistleblowerStep (quotient : Z) {A} (indexOf : A -> ValidatorIndex)
    (reward : SubRewardValue) (x : A) : M SubRewardValue :=
  validator <- state_validators_get (indexOf x) ;;
  let offendingBalance := Validator.effectiveBalance validator in
  ret (reward + Math_floor (js_div offendingBalance quotient)).

(** The sync aggregate reward as section 4.3 of the specification words it:
    the number of set participation bits times the floor of the constant,
    and zero without a sync aggregate. *)
Definition expectedSyncAggregateReward (block : BeaconBlock.t)
    (state : BeaconState.t) : Z :=
  match BeaconBlockBody.syncAggregate (BeaconBlock.body block) with
  | Some syncAggregate =>
      Z.of_nat (BitArray.popcount (SyncAggregate.syncCommitteeBits syncAggregate))
      * Qfloor (EpochCache.syncProposerReward (BeaconState.epochCtx state))
  | None => 0
  end.

Section Continuation.
Context {collab : Collaborators}.

(** The calculators that follow the attestation reward, as one step. *)
Definition afterAttestations (block : BeaconBlock.t)
    (blockAttestationReward : SubRewardValue) : M BlockRewards.t :=
  syncAggregateReward <- computeSyncAggregateReward block ;;
  blockProposerSlashingReward <- computeBlockProposerSlashingReward block ;;
  blockAttesterSlashingReward <- computeBlockAttesterSlashingReward block ;;
  ret {| BlockRewards.proposerIndex := BeaconBlock.proposerIndex block;
         BlockRewards.total :=
           blockAttestationReward + syncAggregateReward
           + blockProposerSlashingReward + blockAttesterSlashingReward;
         BlockRewards.attestations := blockAttestationReward;
         BlockRewards.syncAggregate := syncAggregateReward;
         BlockRewards.proposerSlashings := blockProposerSlashingReward;
         BlockRewards.attesterSlashings := blockAttesterSlashingReward |}.

End Continuation.

(** ** Concrete data for the examples *)

Module Example.

(** A fork schedule: phase0 up to slot 63, then a fork every 64 slots. *)
Definition config : ChainForkConfig.t :=
  {| ChainForkConfig.getForkName := fun slot =>
       if (slot <? 64)%nat then phase0
       else if (slot <? 128)%nat then altair
       else if (slot <? 192)%nat then bellatrix
       else if (slot <? 256)%nat then capella
       else deneb;
     ChainForkConfig.getForkSeq := fun slot => (slot / 64)%nat |}.

(** A registry view backed by a list; reading past the end throws. *)
Definition viewOfList (l : list Validator.t) : ValidatorsView.t :=
  {| ValidatorsView.get := fun index =>
       match nth_error l index with
       | Some validator => Ok validator
       | None => Throw (Error "validator index out of range")
       end |}.

Definition validators : ValidatorsView.t :=
  viewOfList
    [ {| Validator.effectiveBalance := 32000000000 |};
      {| Validator.effectiveBalance := 31000000000 |};
      {| Validator.effectiveBalance := 17000000123 |};
      {| Validator.effectiveBalance := 0 |} ].

(** The example state once attestation processing has reported the reward
    [accumulator] and credited it to validator 1, the proposer. *)
Definition stateWith (accumulator : Z) : BeaconState.t :=
  {| BeaconState.config := config;
     BeaconState.validators := validators;
     BeaconState.balances :=
       [32000000000; 31000000000 + accumulator; 17000000123; 0];
     BeaconState.epochCtx := {| EpochCache.syncProposerReward := (7 # 2)%Q |};
     BeaconState.proposerRewards := {| RewardCache.attestations := accumulator |} |}.

(** The prepared pre-state: nothing reported, nothing credited. *)
Definition state : BeaconState.t := stateWith 0.

Definition header (proposer : ValidatorIndex) : SignedBeaconBlockHeader.t :=
  {| SignedBeaconBlockHeader.message :=
       {| BeaconBlockHeader.slot := 99%nat; BeaconBlockHeader.proposerIndex := proposer |} |}.

Definition proposerSlashing (proposer : ValidatorIndex) : ProposerSlashing.t :=
  {| ProposerSlashing.signedHeader1 := header proposer;
     ProposerSlashing.signedHeader2 := header proposer |}.

Definition attesterSlashing (indices1 indices2 : list ValidatorIndex)
  : AttesterSlashing.t :=
  {| AttesterSlashing.attestation1 :=
       {| IndexedAttestation.attestingIndices := indices1 |};
     AttesterSlashing.attestation2 :=
       {| IndexedAttestation.attestingIndices := indices2 |} |}.

Definition attestation (bits : list bool) : Attestation.t :=
  {| Attestation.aggregationBits := bits;
     Attestation.slot := 99%nat;
     Attestation.index := 0%nat |}.

(** Each set aggregation bit earns 5. *)
Definition attestationReward (_ : ForkSeq) (_ : BeaconState.t)
    (attestation : Attestation.t) : Z :=
  5 * Z.of_nat (BitArray.popcount (Attestation.aggregationBits attestation)).

Definition collaborators : Collaborators :=
  SpecModel.collaborators 512 attestationReward (fun _ => 1%nat).

Definition body : BeaconBlockBody.t :=
  {| BeaconBlockBody.attestations :=
       [attestation [true; true; false]; attestation [true]];
     BeaconBlockBody.syncAggregate :=
       Some {| SyncAggregate.syncCommitteeBits := [true; false; true; true] |};
     BeaconBlockBody.proposerSlashings :=
       [proposerSlashing 2%nat; proposerSlashing 0%nat; proposerSlashing 2%nat];
     BeaconBlockBody.attesterSlashings :=
       [attesterSlashing [0; 1; 2]%nat [1; 2; 3]%nat; attesterSlashing [3%nat] [3%nat]] |}.

Definition blockAt (slot : Slot) : BeaconBlock.t :=
  {| BeaconBlock.slot := slot; BeaconBlock.proposerIndex := 1%nat; BeaconBlock.body := body |}.

(** A sync-committee-era block and a phase0 block. *)
Definition block : BeaconBlock.t := blockAt 100%nat.
Definition phase0Block : BeaconBlock.t := blockAt 3%nat.

(** What [computeBlockRewards] returns on [block] and [state]. *)
Definition rewards : BlockRewards.t :=
  {| BlockRewards.proposerIndex := 1%nat;
     BlockRewards.total := 222656274;
     BlockRewards.attestations := 15;
     BlockRewards.syncAggregate := 9;
     BlockRewards.proposerSlashings := 128906250;
     BlockRewards.attesterSlashings := 93750000 |}.



End Example.

(** ** More concrete data: unreadable validators, unusual pre-states *)

Module ExampleFailures.

Definition blockWith (proposerSlashings : list ProposerSlashing.t)
    (attesterSlashings : list AttesterSlashing.t) : BeaconBlock.t :=
  {| BeaconBlock.slot := 100%nat;
     BeaconBlock.proposerIndex := 1%nat;
     BeaconBlock.body :=
       {| BeaconBlockBody.attestations := [Example.attestation [true]];
          BeaconBlockBody.syncAggregate := None;
          BeaconBlockBody.proposerSlashings := proposerSlashings;
          BeaconBlockBody.attesterSlashings := attesterSlashings |} |}.

(** The second proposer slashing names validator 9, which the view cannot
    read; so does the attester slashing. *)
Definition proposerFails : BeaconBlock.t :=
  blockWith
    [Example.proposerSlashing 2%nat; Example.proposerSlashing 9%nat;
     Example.proposerSlashing 0%nat]
    [Example.attesterSlashing [9%nat] [9%nat]].

(** The proposer slashings can be read; the second attester slashing names
    validator 7. *)
Definition attesterFails : BeaconBlock.t :=
  blockWith
    [Example.proposerSlashing 2%nat]
    [Example.attesterSlashing [0; 1]%nat [1; 0]%nat;
     Example.attesterSlashing [7; 3]%nat [3; 7]%nat].

(** A proposer slashing whose two headers name different proposers. *)
Definition mixedSlashing (first second : ValidatorIndex) : ProposerSlashing.t :=
  {| ProposerSlashing.signedHeader1 := Example.header first;
     ProposerSlashing.signedHeader2 := Example.header second |}.

(** A state whose sync proposer reward is the integer 4, written 8/2. *)
Definition integerRewardState : BeaconState.t :=
  {| BeaconState.config := Example.config;
     BeaconState.validators := Example.validators;
     BeaconState.balances := BeaconState.balances Example.state;
     BeaconState.epochCtx := {| EpochCache.syncProposerReward := (8 # 2)%Q |};
     BeaconState.proposerRewards := {| RewardCache.attestations := 0 |} |}.





End ExampleFailures.

(** ** Concrete runs *)

Example getTrueBitIndexes_run :
  BitArray.getTrueBitIndexes [true; false; true; true] = [0; 2; 3]%nat.
Proof. reflexivity. Qed.

Example getAttesterSlashableIndices_run :
  SpecModel.getAttesterSlashableIndices
    (Example.attesterSlashing [0; 1; 2]%nat [1; 2; 3]%nat) = [1; 2]%nat.
Proof. reflexivity. Qed.

Example floor_of_quotient_run :
  Math_floor (js_div 17000000123 512) = 33203125 /\
  Math_floor (7 # 2)%Q = 3 /\
  Math_floor (js_div (-7) 2) = -4.
Proof. repeat split; reflexivity. Qed.

Example computeBlockRewards_run :
  @computeBlockRewards Example.collaborators Example.block Example.state
  = (Ok Example.rewards, Example.stateWith 15).
Proof. vm_compute. reflexivity. Qed.

Example computeBlockRewards_phase0_run :
  @computeBlockRewards Example.collaborators Example.phase0Block Example.state
  = (Throw (Error unsupportedForkMessage), Example.state).
Proof. vm_compute. reflexivity. Qed.

(** A slashing that names a validator the view cannot read makes the call
    fail with the error of the view, after attestation processing has
    run. *)
Example computeBlockRewards_lookup_fails_run :
  @computeBlockRewards Example.collaborators
    {| BeaconBlock.slot := 100%nat;
       BeaconBlock.proposerIndex := 1%nat;
       BeaconBlock.body :=
         {| BeaconBlockBody.attestations := [Example.attestation [true]];
            BeaconBlockBody.syncAggregate := None;
            BeaconBlockBody.proposerSlashings := [Example.proposerSlashing 9%nat];
            BeaconBlockBody.attesterSlashings := [] |} |}
    Example.state
  = (Throw (Error "validator index out of range"), Example.stateWith 5).
Proof. vm_compute. reflexivity. Qed.

(** ** The monad and the loops *)

Lemma bind_Ok_inv {A B} (m : M A) (k : A -> M B) state b state' :
  bind m k state = (Ok b, state') ->
  exists a state1, m state = (Ok a, state1) /\ k a state1 = (Ok b, state').
Proof.
  unfold bind. destruct (m state) as [[a | e] state1]; intros H.
  - exists a, state1. split; [reflexivity | exact H].
  - discriminate H.
Qed.

Lemma bind_Ok {A B} (m : M A) (k : A -> M B) state a state1 :
  m state = (Ok a, state1) -> bind m k state = k a state1.
Proof. intros H. unfold bind. rewrite H. reflexivity. Qed.

Lemma bind_Throw {A B} (m : M A) (k : A -> M B) state e state1 :
  m state = (Throw e, state1) -> bind m k state = (Throw e, state1).
Proof. intros H. unfold bind. rewrite H. reflexivity. Qed.

Lemma readonly_ret {A} (a : A) : readonly (ret a).
Proof. intros state. reflexivity. Qed.

Lemma readonly_read {A} (f : BeaconState.t -> A) : readonly (read f).
Proof. intros state. reflexivity. Qed.

Lemma readonly_state_validators_get index : readonly (state_validators_get index).
Proof. intros state. reflexivity. Qed.

Lemma readonly_bind {A B} (m : M A) (k : A -> M B) :
  readonly m -> (forall a, readonly (k a)) -> readonly (bind m k).
Proof.
  intros Hm Hk state. unfold bind.
  specialize (Hm state). destruct (m state) as [[a | e] state1]; simpl in Hm; subst.
  - apply Hk.
  - reflexivity.
Qed.

Lemma readonly_for_of {A B} (body : B -> A -> M B) :
  (forall acc x, readonly (body acc x)) ->
  forall xs acc, readonly (for_of xs body acc).
Proof.
  intros Hbody xs. induction xs as [| x rest IH]; intros acc; simpl.
  - apply readonly_ret.
  - apply readonly_bind; [apply Hbody | intros acc'; apply IH].
Qed.

Create HintDb readonly.
#[local] Hint Resolve readonly_ret readonly_read readonly_state_validators_get
  readonly_bind readonly_for_of : readonly.

(** ** Numbers *)

Lemma Math_floor_js_div (a b : Z) : Math_floor (js_div a b) = a / b.
Proof. unfold Math_floor, js_div. symmetry. apply Zdiv_Qdiv. Qed.

(** [a / b] of [Z] is the floor of the quotient when the divisor is positive. *)
Lemma Zdiv_is_floor (a b : Z) : 0 < b -> b * (a / b) <= a < b * (a / b + 1).
Proof.
  intros Hb. pose proof (Z.mul_div_le a b Hb).
  pose proof (Z.mul_succ_div_gt a b Hb). lia.
Qed.

Lemma Math_floor_nonneg (x : Q) : (0 <= x)%Q -> 0 <= Math_floor x.
Proof.
  intros Hx. unfold Math_floor.
  change 0 with (Qfloor (inject_Z 0)). apply Qfloor_resp_le. exact Hx.
Qed.

Lemma Zsum_app (l1 l2 : list Z) : Zsum (l1 ++ l2) = Zsum l1 + Zsum l2.
Proof. induction l1 as [| x l1 IH]; simpl; [reflexivity | rewrite IH; lia]. Qed.

Lemma Zsum_Permutation (l1 l2 : list Z) : Permutation l1 l2 -> Zsum l1 = Zsum l2.
Proof. intros H. induction H; simpl; lia. Qed.


Lemma length_trueBitIndexesFrom (bits : BitArray.t) : forall i,
  List.length (BitArray.trueBitIndexesFrom i bits) = BitArray.popcount bits.
Proof.
  unfold BitArray.popcount.
  induction bits as [| b rest IH]; intros i; simpl; [reflexivity |].
  destruct b; simpl; rewrite IH; reflexivity.
Qed.

Lemma length_getTrueBitIndexes (bits : BitArray.t) :
  List.length (BitArray.getTrueBitIndexes bits) = BitArray.popcount bits.
Proof. apply length_trueBitIndexesFrom. Qed.

(** ** The whistleblower loops *)

Section Loops.
Variable quotient : Z.

Lemma whistleblowerStep_Ok {A} (indexOf : A -> ValidatorIndex) reward x state balance :
  effectiveBalanceOf state (indexOf x) balance ->
  whistleblowerStep quotient indexOf reward x state = (Ok (reward + balance / quotient), state).
Proof.
  intros [validator [Hget Hbalance]].
  unfold whistleblowerStep, bind, state_validators_get, ret.
  rewrite Hget. cbv beta iota zeta. rewrite Hbalance, Math_floor_js_div. reflexivity.
Qed.

Lemma whistleblowerStep_Ok_inv {A} (indexOf : A -> ValidatorIndex) reward x state r state' :
  whistleblowerStep quotient indexOf reward x state = (Ok r, state') ->
  state' = state /\
  exists balance,
    effectiveBalanceOf state (indexOf x) balance /\ r = reward + balance / quotient.
Proof.
  unfold whistleblowerStep, bind, state_validators_get, ret.
  destruct (ValidatorsView.get (BeaconState.validators state) (indexOf x))
    as [validator | e] eqn:Hget; intros H; [| discriminate H].
  cbv beta iota zeta in H. rewrite Math_floor_js_div in H.
  injection H as Hr Hstate. split; [symmetry; exact Hstate |].
  exists (Validator.effectiveBalance validator). split.
  - exists validator. split; [exact Hget | reflexivity].
  - symmetry. exact Hr.
Qed.

Lemma whistleblowerLoop_Ok {A} (indexOf : A -> ValidatorIndex) state xs :
  forall balances reward,
    Forall2 (fun x balance => effectiveBalanceOf state (indexOf x) balance) xs balances ->
    for_of xs (whistleblowerStep quotient indexOf) reward state =
    (Ok (reward + Zsum (map (fun balance => balance / quotient) balances)), state).
Proof.
  induction xs as [| x rest IH]; intros balances reward H; inversion H; subst; simpl.
  - unfold ret. rewrite Z.add_0_r. reflexivity.
  - erewrite bind_Ok by (apply whistleblowerStep_Ok; eassumption).
    rewrite (IH _ _ H4). rewrite Z.add_assoc. reflexivity.
Qed.

Lemma whistleblowerLoop_Ok_inv {A} (indexOf : A -> ValidatorIndex) state xs :
  forall reward r state',
    for_of xs (whistleblowerStep quotient indexOf) reward state = (Ok r, state') ->
    state' = state /\
    exists balances,
      Forall2 (fun x balance => effectiveBalanceOf state (indexOf x) balance) xs balances /\
      r = reward + Zsum (map (fun balance => balance / quotient) balances).
Proof.
  induction xs as [| x rest IH]; intros reward r state' H; simpl in H.
  - injection H as Hr Hstate. split; [symmetry; exact Hstate |].
    exists []. split; [constructor | simpl; lia].
  - apply bind_Ok_inv in H. destruct H as [r1 [state1 [Hstep Hrest]]].
    apply whistleblowerStep_Ok_inv in Hstep.
    destruct Hstep as [-> [balance [Hbalance ->]]].
    apply IH in Hrest. destruct Hrest as [-> [balances [Hall ->]]].
    split; [reflexivity |].
    exists (balance :: balances). split; [constructor; assumption | simpl; lia].
Qed.

(** The nested loop of the attester slashings. *)
Lemma nestedLoop_Ok {A} (indicesOf : A -> list ValidatorIndex) state xs :
  forall balancess reward,
    Forall2 (fun x balances =>
               Forall2 (effectiveBalanceOf state) (indicesOf x) balances)
      xs balancess ->
    for_of xs
      (fun reward x => for_of (indicesOf x) (whistleblowerStep quotient (fun i => i)) reward)
      reward state =
    (Ok (reward
         + Zsum (map (fun balances =>
                        Zsum (map (fun balance => balance / quotient) balances))
                   balancess)),
     state).
Proof.
  induction xs as [| x rest IH]; intros balancess reward H; inversion H; subst; simpl.
  - unfold ret. rewrite Z.add_0_r. reflexivity.
  - erewrite bind_Ok by (apply whistleblowerLoop_Ok; eassumption).
    rewrite (IH _ _ H4). rewrite Z.add_assoc. reflexivity.
Qed.


(** Balances are functional: a validator has one effective balance. *)
Lemma effectiveBalanceOf_fun state index b1 b2 :
  effectiveBalanceOf state index b1 -> effectiveBalanceOf state index b2 -> b1 = b2.
Proof.
  intros [v1 [H1 E1]] [v2 [H2 E2]]. rewrite H1 in H2.
  injection H2 as ->. congruence.
Qed.

Lemma Forall2_effectiveBalanceOf_fun {A} (indexOf : A -> ValidatorIndex) state xs :
  forall l1 l2,
    Forall2 (fun x b => effectiveBalanceOf state (indexOf x) b) xs l1 ->
    Forall2 (fun x b => effectiveBalanceOf state (indexOf x) b) xs l2 ->
    l1 = l2.
Proof.
  induction xs as [| x rest IH]; intros l1 l2 H1 H2;
    inversion H1; inversion H2; subst; [reflexivity |].
  f_equal; [eapply effectiveBalanceOf_fun; eassumption | apply IH; assumption].
Qed.

End Loops.

(** ** The sub-calculators *)

Lemma ForkName_eqb_eq (a b : ForkName) : ForkName_eqb a b = true <-> a = b.
Proof. destruct a, b; simpl; split; intros H; try reflexivity; discriminate H. Qed.

Lemma ForkName_eqb_neq (a b : ForkName) : ForkName_eqb a b = false <-> a <> b.
Proof.
  destruct a, b; simpl; split; intros H; try reflexivity; try discriminate H;
    try (intros E; discriminate E); exfalso; apply H; reflexivity.
Qed.

Section SubCalculators.
Context {collab : Collaborators}.

Lemma computeBlockProposerSlashingReward_loop block :
  computeBlockProposerSlashingReward block =
  for_of (BeaconBlockBody.proposerSlashings (BeaconBlock.body block))
    (whistleblowerStep WHISTLEBLOWER_REWARD_QUOTIENT offendingProposerIndexOf) 0.
Proof. reflexivity. Qed.

Lemma computeBlockAttesterSlashingReward_loop block :
  computeBlockAttesterSlashingReward block =
  for_of (BeaconBlockBody.attesterSlashings (BeaconBlock.body block))
    (fun reward attesterSlashing =>
       for_of (getAttesterSlashableIndices attesterSlashing)
         (whistleblowerStep WHISTLEBLOWER_REWARD_QUOTIENT (fun i => i)) reward)
    0.
Proof. reflexivity. Qed.

Lemma computeSyncAggregateReward_eq block state :
  computeSyncAggregateReward block state =
  (Ok (expectedSyncAggregateReward block state), state).
Proof.
  unfold computeSyncAggregateReward, expectedSyncAggregateReward.
  destruct (BeaconBlockBody.syncAggregate (BeaconBlock.body block)) as [syncAggregate |].
  - unfold bind, read, ret, Math_floor. rewrite length_getTrueBitIndexes. reflexivity.
  - reflexivity.
Qed.

Lemma computeBlockAttestationRewardAltair_eq block state :
  computeBlockAttestationRewardAltair block state =
  match processAttestationsAltair
          (ChainForkConfig.getForkSeq (BeaconState.config state) (BeaconBlock.slot block))
          state (BeaconBlockBody.attestations (BeaconBlock.body block)) false
  with
  | (Ok _, state') =>
      (Ok (RewardCache.attestations (BeaconState.proposerRewards state')), state')
  | (Throw e, state') => (Throw e, state')
  end.
Proof.
  unfold computeBlockAttestationRewardAltair, bind, read.
  destruct (processAttestationsAltair _ state _ false) as [[u | e] state']; reflexivity.
Qed.

Lemma readonly_computeSyncAggregateReward block :
  readonly (computeSyncAggregateReward block).
Proof. intros state. rewrite computeSyncAggregateReward_eq. reflexivity. Qed.

Lemma readonly_whistleblowerStep quotient {A} (indexOf : A -> ValidatorIndex) reward x :
  readonly (whistleblowerStep quotient indexOf reward x).
Proof. unfold whistleblowerStep. auto with readonly. Qed.

Lemma readonly_computeBlockProposerSlashingReward block :
  readonly (computeBlockProposerSlashingReward block).
Proof.
  rewrite computeBlockProposerSlashingReward_loop.
  apply readonly_for_of. intros. apply readonly_whistleblowerStep.
Qed.

Lemma readonly_computeBlockAttesterSlashingReward block :
  readonly (computeBlockAttesterSlashingReward block).
Proof.
  rewrite computeBlockAttesterSlashingReward_loop.
  apply readonly_for_of. intros. apply readonly_for_of.
  intros. apply readonly_whistleblowerStep.
Qed.

Lemma readonly_afterAttestations block reward :
  readonly (afterAttestations block reward).
Proof.
  unfold afterAttestations.
  apply readonly_bind; [apply readonly_computeSyncAggregateReward | intros].
  apply readonly_bind; [apply readonly_computeBlockProposerSlashingReward | intros].
  apply readonly_bind; [apply readonly_computeBlockAttesterSlashingReward | intros].
  apply readonly_ret.
Qed.

Lemma computeBlockRewards_phase0 block state :
  ChainForkConfig.getForkName (BeaconState.config state) (BeaconBlock.slot block) = phase0 ->
  computeBlockRewards block state = (Throw (Error unsupportedForkMessage), state).
Proof.
  intros Hfork. unfold computeBlockRewards, bind, read. rewrite Hfork. reflexivity.
Qed.

Lemma computeBlockRewards_altair block state :
  ChainForkConfig.getForkName (BeaconState.config state) (BeaconBlock.slot block) <> phase0 ->
  computeBlockRewards block state =
  bind (computeBlockAttestationRewardAltair block) (afterAttestations block) state.
Proof.
  intros Hfork. apply ForkName_eqb_neq in Hfork.
  unfold computeBlockRewards at 1. unfold bind at 1. unfold read at 1.
  rewrite Hfork. reflexivity.
Qed.

Lemma afterAttestations_Ok_inv block reward state rewards state' :
  afterAttestations block reward state = (Ok rewards, state') ->
  state' = state /\
  exists proposer attester,
    computeBlockProposerSlashingReward block state = (Ok proposer, state) /\
    computeBlockAttesterSlashingReward block state = (Ok attester, state) /\
    rewards =
    {| BlockRewards.proposerIndex := BeaconBlock.proposerIndex block;
       BlockRewards.total :=
         reward + expectedSyncAggregateReward block state + proposer + attester;
       BlockRewards.attestations := reward;
       BlockRewards.syncAggregate := expectedSyncAggregateReward block state;
       BlockRewards.proposerSlashings := proposer;
       BlockRewards.attesterSlashings := attester |}.
Proof.
  unfold afterAttestations. intros H.
  apply bind_Ok_inv in H. destruct H as [sync [s1 [Hsync H]]].
  rewrite computeSyncAggregateReward_eq in Hsync. injection Hsync as <- <-.
  apply bind_Ok_inv in H. destruct H as [proposer [s2 [Hproposer H]]].
  pose proof (readonly_computeBlockProposerSlashingReward block state) as R2.
  rewrite Hproposer in R2. simpl in R2. subst s2.
  apply bind_Ok_inv in H. destruct H as [attester [s3 [Hattester H]]].
  pose proof (readonly_computeBlockAttesterSlashingReward block state) as R3.
  rewrite Hattester in R3. simpl in R3. subst s3.
  unfold ret in H. injection H as <- <-.
  split; [reflexivity |]. exists proposer, attester. auto.
Qed.

Lemma afterAttestations_Ok block reward state proposer attester :
  computeBlockProposerSlashingReward block state = (Ok proposer, state) ->
  computeBlockAttesterSlashingReward block state = (Ok attester, state) ->
  afterAttestations block reward state =
  (Ok {| BlockRewards.proposerIndex := BeaconBlock.proposerIndex block;
         BlockRewards.total :=
           reward + expectedSyncAggregateReward block state + proposer + attester;
         BlockRewards.attestations := reward;
         BlockRewards.syncAggregate := expectedSyncAggregateReward block state;
         BlockRewards.proposerSlashings := proposer;
         BlockRewards.attesterSlashings := attester |},
   state).
Proof.
  intros Hproposer Hattester. unfold afterAttestations.
  erewrite bind_Ok by apply computeSyncAggregateReward_eq.
  erewrite bind_Ok by exact Hproposer.
  erewrite bind_Ok by exact Hattester.
  reflexivity.
Qed.

(** What a successful call went through. *)
Lemma computeBlockRewards_Ok_inv block state rewards state' :
  computeBlockRewards block state = (Ok rewards, state') ->
  ChainForkConfig.getForkName (BeaconState.config state) (BeaconBlock.slot block) <> phase0 /\
  processAttestationsAltair
    (ChainForkConfig.getForkSeq (BeaconState.config state) (BeaconBlock.slot block))
    state (BeaconBlockBody.attestations (BeaconBlock.body block)) false
  = (Ok tt, state') /\
  afterAttestations block
    (RewardCache.attestations (BeaconState.proposerRewards state')) state'
  = (Ok rewards, state').
Proof.
  intros H.
  destruct (ForkName_eqb
              (ChainForkConfig.getForkName (BeaconState.config state)
                 (BeaconBlock.slot block)) phase0) eqn:Hfork.
  - apply ForkName_eqb_eq in Hfork.
    rewrite (computeBlockRewards_phase0 _ _ Hfork) in H. discriminate H.
  - apply ForkName_eqb_neq in Hfork. split; [exact Hfork |].
    rewrite (computeBlockRewards_altair _ _ Hfork) in H.
    apply bind_Ok_inv in H. destruct H as [reward [s1 [Hatt Hrest]]].
    rewrite computeBlockAttestationRewardAltair_eq in Hatt.
    destruct (processAttestationsAltair _ state _ false) as [[[] | e] s1'];
      [| discriminate Hatt].
    injection Hatt as <- <-.
    pose proof (readonly_afterAttestations block
                  (RewardCache.attestations (BeaconState.proposerRewards s1')) s1') as R.
    rewrite Hrest in R. simpl in R. subst state'.
    split; [reflexivity | exact Hrest].
Qed.

End SubCalculators.

(** * Properties of [computeBlockRewards] *)

(** ** The unsupported fork *)

(** C1.  For every block whose slot resolves to phase0, the earliest fork,
    [computeBlockRewards] fails with the unsupported-fork error and returns
    no reward breakdown; the phase0 attestation-reward path fails on every
    input. *)
Theorem computeBlockRewards_phase0_unsupported
    (collab : Collaborators) (block : BeaconBlock.t) (state : BeaconState.t) :
  ChainForkConfig.getForkName (BeaconState.config state) (BeaconBlock.slot block) = phase0 ->
  fst (computeBlockRewards block state) = Throw (Error unsupportedForkMessage) /\
  (forall rewards, fst (computeBlockRewards block state) <> Ok rewards) /\
  (forall anyBlock anyState,
     fst (computeBlockAttestationRewardPhase0 anyBlock anyState)
     = Throw (Error unsupportedForkMessage)).
Proof.
  intros Hfork. rewrite (computeBlockRewards_phase0 _ _ Hfork). simpl.
  split; [reflexivity |]. split.
  - intros rewards H. discriminate H.
  - intros anyBlock anyState. reflexivity.
Qed.

Lemma computeBlockRewards_phase0_unsupported_witness :
  fst (@computeBlockRewards Example.collaborators Example.phase0Block Example.state)
  = Throw (Error unsupportedForkMessage).
Proof.
  apply (computeBlockRewards_phase0_unsupported
           Example.collaborators Example.phase0Block Example.state).
  reflexivity.
Defined.

(** C10.  On a phase0 block the call throws before anything else runs: the
    state object, its proposer-reward accumulator included, is exactly as it
    was, whatever the collaborators would have done, and the outcome does
    not depend on the block body, so that neither the sync aggregate nor the
    slashings are looked at. *)
Theorem computeBlockRewards_phase0_atomic
    (collab : Collaborators) (block : BeaconBlock.t) (state : BeaconState.t) :
  ChainForkConfig.getForkName (BeaconState.config state) (BeaconBlock.slot block) = phase0 ->
  computeBlockRewards block state = (Throw (Error unsupportedForkMessage), state) /\
  snd (computeBlockRewards block state) = state /\
  (forall anyBody,
     computeBlockRewards
       {| BeaconBlock.slot := BeaconBlock.slot block;
          BeaconBlock.proposerIndex := BeaconBlock.proposerIndex block;
          BeaconBlock.body := anyBody |} state
     = (Throw (Error unsupportedForkMessage), state)).
Proof.
  intros Hfork. split; [| split].
  - apply computeBlockRewards_phase0. exact Hfork.
  - rewrite (computeBlockRewards_phase0 _ _ Hfork). reflexivity.
  - intros anyBody. apply computeBlockRewards_phase0. exact Hfork.
Qed.

Lemma computeBlockRewards_phase0_atomic_witness :
  @computeBlockRewards Example.collaborators Example.phase0Block (Example.stateWith 7)
  = (Throw (Error unsupportedForkMessage), Example.stateWith 7).
Proof.
  apply (computeBlockRewards_phase0_atomic
           Example.collaborators Example.phase0Block (Example.stateWith 7)).
  reflexivity.
Defined.

(** ** The attestation reward *)

(** C3.  On a block of a fork after phase0 the attestation reward comes from
    one call of [processAttestationsAltair] on the fork sequence number of
    the block's slot, the state, the block's attestation list and [false]:
    the reward is the value of [state.proposerRewards.attestations] once the
    call has returned, and an error of the call is the error of
    [computeBlockRewards]. *)
Theorem attestations_reward_is_accumulator_after_processing
    (collab : Collaborators) (block : BeaconBlock.t) (state : BeaconState.t) :
  ChainForkConfig.getForkName (BeaconState.config state) (BeaconBlock.slot block) <> phase0 ->
  let processed :=
    processAttestationsAltair
      (ChainForkConfig.getForkSeq (BeaconState.config state) (BeaconBlock.slot block))
      state (BeaconBlockBody.attestations (BeaconBlock.body block)) false in
  computeBlockAttestationRewardAltair block state =
  match processed with
  | (Ok _, state') =>
      (Ok (RewardCache.attestations (BeaconState.proposerRewards state')), state')
  | (Throw e, state') => (Throw e, state')
  end /\
  (forall rewards state',
     computeBlockRewards block state = (Ok rewards, state') ->
     processed = (Ok tt, state') /\
     BlockRewards.attestations rewards =
     RewardCache.attestations (BeaconState.proposerRewards (snd processed))) /\
  (forall e, fst processed = Throw e ->
     computeBlockRewards block state = (Throw e, snd processed)).
Proof.
  intros Hfork processed. split; [| split].
  - apply computeBlockAttestationRewardAltair_eq.
  - intros rewards state' H.
    apply computeBlockRewards_Ok_inv in H. destruct H as [_ [Hprocessed Hrest]].
    fold processed in Hprocessed. split; [exact Hprocessed |].
    rewrite Hprocessed. simpl.
    apply afterAttestations_Ok_inv in Hrest.
    destruct Hrest as [_ [proposer [attester [_ [_ ->]]]]]. reflexivity.
  - intros e He. rewrite (computeBlockRewards_altair _ _ Hfork).
    apply bind_Throw. rewrite computeBlockAttestationRewardAltair_eq.
    fold processed. destruct processed as [[u | e'] state']; simpl in He.
    + discriminate He.
    + injection He as ->. reflexivity.
Qed.

Lemma attestations_reward_is_accumulator_after_processing_witness :
  @computeBlockAttestationRewardAltair Example.collaborators Example.block Example.state
  = (Ok 15, Example.stateWith 15).
Proof.
  destruct (attestations_reward_is_accumulator_after_processing
              Example.collaborators Example.block Example.state) as [H _].
  - simpl. intros E. discriminate E.
  - rewrite H. reflexivity.
Defined.

(** ** The sync aggregate reward *)

(** C4.  When the block body carries a sync aggregate with [k] set
    participation bits and the state holds the constant [r], the sync
    aggregate reward is [k * floor r]; without a sync aggregate it is 0.
    The calculator itself never fails and reads [r] from the state it is
    run on; inside [computeBlockRewards] that is the state object as
    attestation processing left it. *)
Theorem syncAggregate_reward_is_bits_times_floor
    (collab : Collaborators) (block : BeaconBlock.t) (state : BeaconState.t)
    (rewards : BlockRewards.t) (state' : BeaconState.t) :
  computeBlockRewards block state = (Ok rewards, state') ->
  (forall syncAggregate,
     BeaconBlockBody.syncAggregate (BeaconBlock.body block) = Some syncAggregate ->
     let k := BitArray.popcount (SyncAggregate.syncCommitteeBits syncAggregate) in
     let r := EpochCache.syncProposerReward (BeaconState.epochCtx state') in
     computeSyncAggregateReward block state' = (Ok (Z.of_nat k * Qfloor r), state') /\
     BlockRewards.syncAggregate rewards = Z.of_nat k * Qfloor r) /\
  (BeaconBlockBody.syncAggregate (BeaconBlock.body block) = None ->
   computeSyncAggregateReward block state' = (Ok 0, state') /\
   BlockRewards.syncAggregate rewards = 0).
Proof.
  intros H. apply computeBlockRewards_Ok_inv in H. destruct H as [_ [_ Hrest]].
  apply afterAttestations_Ok_inv in Hrest.
  destruct Hrest as [_ [proposer [attester [_ [_ ->]]]]]. simpl.
  rewrite computeSyncAggregateReward_eq. unfold expectedSyncAggregateReward.
  split.
  - intros syncAggregate Hsome. rewrite Hsome. split; reflexivity.
  - intros Hnone. rewrite Hnone. split; reflexivity.
Qed.

Lemma syncAggregate_reward_is_bits_times_floor_witness :
  BeaconBlockBody.syncAggregate (BeaconBlock.body Example.block)
  = Some {| SyncAggregate.syncCommitteeBits := [true; false; true; true] |} /\
  computeSyncAggregateReward Example.block (Example.stateWith 15)
  = (Ok (3 * Qfloor (7 # 2)%Q), Example.stateWith 15).
Proof.
  split; [reflexivity |].
  destruct (syncAggregate_reward_is_bits_times_floor
              Example.collaborators Example.block Example.state
              Example.rewards (Example.stateWith 15)) as [Hsome _].
  - vm_compute. reflexivity.
  - destruct (Hsome _ eq_refl) as [Hcalc _]. exact Hcalc.
Defined.

(** ** The slashing rewards *)

Lemma Forall2_Permutation {A B} (R : A -> B -> Prop) (xs xs' : list A) :
  Permutation xs xs' ->
  forall ys, Forall2 R xs ys ->
  exists ys', Forall2 R xs' ys' /\ Permutation ys ys'.
Proof.
  intros Hperm. induction Hperm as [| x xs xs' Hperm IH | x1 x2 xs | xs xs' xs'' _ IH1 _ IH2];
    intros ys Hall.
  - inversion Hall; subst. exists []. split; constructor.
  - inversion Hall as [| x0 y l ys0 Hxy Hrest]; subst.
    destruct (IH _ Hrest) as [ys' [Hall' Hperm']].
    exists (y :: ys'). split; [constructor; assumption | constructor; assumption].
  - inversion Hall as [| x0 y1 l ys1 Hxy1 Hrest1]; subst.
    inversion Hrest1 as [| x0 y2 l ys2 Hxy2 Hrest2]; subst.
    exists (y2 :: y1 :: ys2). split; [repeat constructor; assumption | constructor].
  - destruct (IH1 _ Hall) as [ys' [Hall' Hperm']].
    destruct (IH2 _ Hall') as [ys'' [Hall'' Hperm'']].
    exists ys''. split; [assumption | eapply Permutation_trans; eassumption].
Qed.

(** C5.  The proposer slashing reward is the sum, over the proposer
    slashings of the block body taken one by one (a slashing that occurs
    twice counts twice), of [floor (B / WHISTLEBLOWER_REWARD_QUOTIENT)],
    where [B] is the effective balance, in the state object the calculator
    reads, of the validator that the first signed header's message names as
    proposer.  Each summand is the floor of the quotient, and the order of
    the slashings does not matter. *)
Theorem proposerSlashings_reward_is_sum_of_quotients
    (collab : Collaborators) (block : BeaconBlock.t) (state : BeaconState.t)
    (rewards : BlockRewards.t) (state' : BeaconState.t) (balances : list Z) :
  0 < WHISTLEBLOWER_REWARD_QUOTIENT ->
  computeBlockRewards block state = (Ok rewards, state') ->
  Forall2
    (fun proposerSlashing B =>
       effectiveBalanceOf state'
         (BeaconBlockHeader.proposerIndex
            (SignedBeaconBlockHeader.message
               (ProposerSlashing.signedHeader1 proposerSlashing))) B)
    (BeaconBlockBody.proposerSlashings (BeaconBlock.body block)) balances ->
  BlockRewards.proposerSlashings rewards =
  Zsum (map (fun B => B / WHISTLEBLOWER_REWARD_QUOTIENT) balances) /\
  (forall B,
     WHISTLEBLOWER_REWARD_QUOTIENT * (B / WHISTLEBLOWER_REWARD_QUOTIENT) <= B
     < WHISTLEBLOWER_REWARD_QUOTIENT * (B / WHISTLEBLOWER_REWARD_QUOTIENT + 1)) /\
  (forall reordered,
     Permutation (BeaconBlockBody.proposerSlashings (BeaconBlock.body block))
       (BeaconBlockBody.proposerSlashings (BeaconBlock.body reordered)) ->
     computeBlockProposerSlashingReward reordered state' =
     computeBlockProposerSlashingReward block state').
Proof.
  intros Hquotient Hcall Hbalances.
  apply computeBlockRewards_Ok_inv in Hcall. destruct Hcall as [_ [_ Hrest]].
  apply afterAttestations_Ok_inv in Hrest.
  destruct Hrest as [_ [proposer [attester [Hproposer [_ ->]]]]]. simpl.
  pose proof (whistleblowerLoop_Ok WHISTLEBLOWER_REWARD_QUOTIENT
                offendingProposerIndexOf state' _ balances 0 Hbalances) as Hloop.
  rewrite <- computeBlockProposerSlashingReward_loop in Hloop.
  split; [| split].
  - rewrite Hloop in Hproposer. injection Hproposer as <-. reflexivity.
  - intros B. apply Zdiv_is_floor. exact Hquotient.
  - intros reordered Hperm.
    destruct (Forall2_Permutation _ _ _ Hperm _ Hbalances) as [balances' [Hall' Hperm']].
    pose proof (whistleblowerLoop_Ok WHISTLEBLOWER_REWARD_QUOTIENT
                  offendingProposerIndexOf state' _ balances' 0 Hall') as Hloop'.
    rewrite <- computeBlockProposerSlashingReward_loop in Hloop'.
    rewrite Hloop, Hloop'. do 2 f_equal. f_equal.
    apply Zsum_Permutation. apply Permutation_map. apply Permutation_sym. exact Hperm'.
Qed.

(** Discharges [effectiveBalanceOf] on concrete data. *)
Ltac concrete_balance := eexists; split; reflexivity.

Lemma proposerSlashings_reward_is_sum_of_quotients_witness :
  BlockRewards.proposerSlashings Example.rewards
  = Zsum (map (fun B => B / 512) [17000000123; 32000000000; 17000000123]).
Proof.
  apply (proposerSlashings_reward_is_sum_of_quotients
           Example.collaborators Example.block Example.state
           Example.rewards (Example.stateWith 15)
           [17000000123; 32000000000; 17000000123]).
  - reflexivity.
  - vm_compute. reflexivity.
  - repeat constructor; concrete_balance.
Defined.

(** C6.  The attester slashing reward is the sum, over the attester
    slashings of the block body and, for each, over the validator indices
    that [getAttesterSlashableIndices] returns for it, of
    [floor (Bi / WHISTLEBLOWER_REWARD_QUOTIENT)], where [Bi] is the
    effective balance of that validator in the state object the calculator
    reads. *)
Theorem attesterSlashings_reward_is_sum_of_quotients
    (collab : Collaborators) (block : BeaconBlock.t) (state : BeaconState.t)
    (rewards : BlockRewards.t) (state' : BeaconState.t) (balances : list (list Z)) :
  0 < WHISTLEBLOWER_REWARD_QUOTIENT ->
  computeBlockRewards block state = (Ok rewards, state') ->
  Forall2
    (fun attesterSlashing Bs =>
       Forall2 (effectiveBalanceOf state')
         (getAttesterSlashableIndices attesterSlashing) Bs)
    (BeaconBlockBody.attesterSlashings (BeaconBlock.body block)) balances ->
  BlockRewards.attesterSlashings rewards =
  Zsum (map (fun Bs => Zsum (map (fun Bi => Bi / WHISTLEBLOWER_REWARD_QUOTIENT) Bs))
          balances) /\
  (forall Bi,
     WHISTLEBLOWER_REWARD_QUOTIENT * (Bi / WHISTLEBLOWER_REWARD_QUOTIENT) <= Bi
     < WHISTLEBLOWER_REWARD_QUOTIENT * (Bi / WHISTLEBLOWER_REWARD_QUOTIENT + 1)).
Proof.
  intros Hquotient Hcall Hbalances.
  apply computeBlockRewards_Ok_inv in Hcall. destruct Hcall as [_ [_ Hrest]].
  apply afterAttestations_Ok_inv in Hrest.
  destruct Hrest as [_ [proposer [attester [_ [Hattester ->]]]]]. simpl.
  pose proof (nestedLoop_Ok WHISTLEBLOWER_REWARD_QUOTIENT
                getAttesterSlashableIndices state' _ balances 0 Hbalances) as Hloop.
  rewrite <- computeBlockAttesterSlashingReward_loop in Hloop.
  split.
  - rewrite Hloop in Hattester. injection Hattester as <-. reflexivity.
  - intros Bi. apply Zdiv_is_floor. exact Hquotient.
Qed.

Lemma attesterSlashings_reward_is_sum_of_quotients_witness :
  BlockRewards.attesterSlashings Example.rewards
  = Zsum (map (fun Bs => Zsum (map (fun Bi => Bi / 512) Bs))
            [[31000000000; 17000000123]; [0]]).
Proof.
  apply (attesterSlashings_reward_is_sum_of_quotients
           Example.collaborators Example.block Example.state
           Example.rewards (Example.stateWith 15)
           [[31000000000; 17000000123]; [0]]).
  - reflexivity.
  - vm_compute. reflexivity.
  - repeat constructor; concrete_balance.
Defined.

(** ** The total and the signs *)






(** Above [2 ^ 53] the sum of the source is no longer the exact sum. *)
Example sumInDoubles_rounds :
  sumInDoubles (2 ^ 53) 1 0 0 = 2 ^ 53 /\
  sumInDoubles (2 ^ 53) 1 1 0 = 2 ^ 53 /\
  sumInDoubles (2 ^ 53) 3 0 0 = 2 ^ 53 + 4.
Proof. repeat split; vm_compute; reflexivity. Qed.


(** ** The engine of the examples *)

Section SpecEngine.
Variable attestationReward : ForkSeq -> BeaconState.t -> Attestation.t -> Z.
Variable beaconProposer : BeaconState.t -> ValidatorIndex.


End SpecEngine.

Section WholeCall.
Context {collab : Collaborators}.

(** A call on a later fork, from the results of its parts. *)
Lemma computeBlockRewards_Ok block state state1 proposer attester :
  ChainForkConfig.getForkName (BeaconState.config state) (BeaconBlock.slot block) <> phase0 ->
  processAttestationsAltair
    (ChainForkConfig.getForkSeq (BeaconState.config state) (BeaconBlock.slot block))
    state (BeaconBlockBody.attestations (BeaconBlock.body block)) false
  = (Ok tt, state1) ->
  computeBlockProposerSlashingReward block state1 = (Ok proposer, state1) ->
  computeBlockAttesterSlashingReward block state1 = (Ok attester, state1) ->
  computeBlockRewards block state =
  (Ok {| BlockRewards.proposerIndex := BeaconBlock.proposerIndex block;
         BlockRewards.total :=
           accumulator state1 + expectedSyncAggregateReward block state1
           + proposer + attester;
         BlockRewards.attestations := accumulator state1;
         BlockRewards.syncAggregate := expectedSyncAggregateReward block state1;
         BlockRewards.proposerSlashings := proposer;
         BlockRewards.attesterSlashings := attester |},
   state1).
Proof.
  intros Hfork Hprocessed Hproposer Hattester.
  rewrite (computeBlockRewards_altair _ _ Hfork).
  erewrite bind_Ok.
  - apply afterAttestations_Ok; eassumption.
  - rewrite computeBlockAttestationRewardAltair_eq, Hprocessed. reflexivity.
Qed.


End WholeCall.





(** ** What the call writes *)




(** ** A block that earns nothing *)



(** ** Calling twice on one state object *)




(** * Further properties of the calculators *)

(** ** Sequencing of loops *)

Lemma bind_assoc {A B C} (m : M A) (k : A -> M B) (h : B -> M C) state :
  bind (bind m k) h state = bind m (fun a => bind (k a) h) state.
Proof. unfold bind. destruct (m state) as [[a | e] state1]; reflexivity. Qed.

Lemma bind_ext {A B} (m : M A) (k k' : A -> M B) state :
  (forall a state1, k a state1 = k' a state1) -> bind m k state = bind m k' state.
Proof.
  intros H. unfold bind. destruct (m state) as [[a | e] state1]; [apply H | reflexivity].
Qed.

Lemma for_of_app {A B} (body : B -> A -> M B) (xs ys : list A) :
  forall acc state,
    for_of (xs ++ ys) body acc state
    = bind (for_of xs body acc) (for_of ys body) state.
Proof.
  induction xs as [| x rest IH]; intros acc state; simpl.
  - reflexivity.
  - rewrite bind_assoc. apply bind_ext. intros acc' state1. apply IH.
Qed.

Lemma for_of_flat_map {A B C} (f : A -> list C) (step : B -> C -> M B) (xs : list A) :
  forall acc state,
    for_of xs (fun reward x => for_of (f x) step reward) acc state
    = for_of (flat_map f xs) step acc state.
Proof.
  induction xs as [| x rest IH]; intros acc state; simpl.
  - reflexivity.
  - rewrite for_of_app. apply bind_ext. intros acc' state1. apply IH.
Qed.

Lemma for_of_map {A B C} (f : A -> C) (step : B -> C -> M B) (xs : list A) :
  forall acc state,
    for_of xs (fun reward x => step reward (f x)) acc state
    = for_of (map f xs) step acc state.
Proof.
  induction xs as [| x rest IH]; intros acc state; simpl.
  - reflexivity.
  - apply bind_ext. intros acc' state1. apply IH.
Qed.

(** ** Lookups that throw *)

Lemma whistleblowerStep_Throw quotient {A} (indexOf : A -> ValidatorIndex)
    reward x state e :
  ValidatorsView.get (BeaconState.validators state) (indexOf x) = Throw e ->
  whistleblowerStep quotient indexOf reward x state = (Throw e, state).
Proof.
  intros Hget. unfold whistleblowerStep. apply bind_Throw.
  unfold state_validators_get. rewrite Hget. reflexivity.
Qed.

Lemma whistleblowerStep_Throw_inv quotient {A} (indexOf : A -> ValidatorIndex)
    reward x state e state' :
  whistleblowerStep quotient indexOf reward x state = (Throw e, state') ->
  state' = state /\
  ValidatorsView.get (BeaconState.validators state) (indexOf x) = Throw e.
Proof.
  unfold whistleblowerStep, bind, state_validators_get, ret.
  destruct (ValidatorsView.get (BeaconState.validators state) (indexOf x))
    as [validator | e1]; intros H.
  - discriminate H.
  - injection H as -> ->. split; reflexivity.
Qed.

Lemma whistleblowerLoop_Throw quotient {A} (indexOf : A -> ValidatorIndex) state
    before failing after balances e reward :
  Forall2 (fun x balance => effectiveBalanceOf state (indexOf x) balance)
    before balances ->
  ValidatorsView.get (BeaconState.validators state) (indexOf failing) = Throw e ->
  for_of (before ++ failing :: after) (whistleblowerStep quotient indexOf) reward state
  = (Throw e, state).
Proof.
  intros Hbefore Hget. rewrite for_of_app.
  erewrite bind_Ok by (apply whistleblowerLoop_Ok; exact Hbefore).
  simpl. apply bind_Throw. apply whistleblowerStep_Throw. exact Hget.
Qed.

Lemma whistleblowerLoop_Throw_inv quotient {A} (indexOf : A -> ValidatorIndex) state xs :
  forall reward e state',
    for_of xs (whistleblowerStep quotient indexOf) reward state = (Throw e, state') ->
    state' = state /\
    exists x,
      In x xs /\
      ValidatorsView.get (BeaconState.validators state) (indexOf x) = Throw e.
Proof.
  induction xs as [| x rest IH]; intros reward e state' H; simpl in H.
  - discriminate H.
  - unfold bind in H.
    destruct (whistleblowerStep quotient indexOf reward x state)
      as [[reward1 | e1] state1] eqn:Hstep.
    + apply whistleblowerStep_Ok_inv in Hstep. destruct Hstep as [-> _].
      apply IH in H. destruct H as [-> [y [Hin Hget]]].
      split; [reflexivity |]. exists y. split; [right; exact Hin | exact Hget].
    + injection H as -> ->.
      apply whistleblowerStep_Throw_inv in Hstep. destruct Hstep as [-> Hget].
      split; [reflexivity |]. exists x. split; [left; reflexivity | exact Hget].
Qed.

Section Failures.
Context {collab : Collaborators}.

Lemma computeBlockAttesterSlashingReward_flat block state :
  computeBlockAttesterSlashingReward block state =
  for_of
    (flat_map getAttesterSlashableIndices
       (BeaconBlockBody.attesterSlashings (BeaconBlock.body block)))
    (whistleblowerStep WHISTLEBLOWER_REWARD_QUOTIENT (fun i => i)) 0 state.
Proof.
  rewrite computeBlockAttesterSlashingReward_loop. apply for_of_flat_map.
Qed.

Lemma afterAttestations_Throw_inv block reward state e state' :
  afterAttestations block reward state = (Throw e, state') ->
  state' = state /\
  (computeBlockProposerSlashingReward block state = (Throw e, state) \/
   computeBlockAttesterSlashingReward block state = (Throw e, state)).
Proof.
  unfold afterAttestations. intros H.
  erewrite bind_Ok in H by apply computeSyncAggregateReward_eq.
  unfold bind at 1 in H.
  pose proof (readonly_computeBlockProposerSlashingReward block state) as R1.
  destruct (computeBlockProposerSlashingReward block state)
    as [[proposer | e1] s1]; simpl in R1; subst s1.
  - unfold bind at 1 in H.
    pose proof (readonly_computeBlockAttesterSlashingReward block state) as R2.
    destruct (computeBlockAttesterSlashingReward block state)
      as [[attester | e2] s2]; simpl in R2; subst s2.
    + discriminate H.
    + injection H as -> ->. split; [reflexivity | right; reflexivity].
  - injection H as -> ->. split; [reflexivity | left; reflexivity].
Qed.

Lemma afterAttestations_proposer_Throw block reward state e :
  computeBlockProposerSlashingReward block state = (Throw e, state) ->
  afterAttestations block reward state = (Throw e, state).
Proof.
  intros H. unfold afterAttestations.
  erewrite bind_Ok by apply computeSyncAggregateReward_eq.
  apply bind_Throw. exact H.
Qed.

Lemma afterAttestations_attester_Throw block reward state proposer e :
  computeBlockProposerSlashingReward block state = (Ok proposer, state) ->
  computeBlockAttesterSlashingReward block state = (Throw e, state) ->
  afterAttestations block reward state = (Throw e, state).
Proof.
  intros Hproposer H. unfold afterAttestations.
  erewrite bind_Ok by apply computeSyncAggregateReward_eq.
  erewrite bind_Ok by exact Hproposer.
  apply bind_Throw. exact H.
Qed.

Lemma computeBlockRewards_after block state state1 :
  ChainForkConfig.getForkName (BeaconState.config state) (BeaconBlock.slot block) <> phase0 ->
  processAttestationsAltair
    (ChainForkConfig.getForkSeq (BeaconState.config state) (BeaconBlock.slot block))
    state (BeaconBlockBody.attestations (BeaconBlock.body block)) false
  = (Ok tt, state1) ->
  computeBlockRewards block state =
  afterAttestations block
    (RewardCache.attestations (BeaconState.proposerRewards state1)) state1.
Proof.
  intros Hfork Hprocessed. rewrite (computeBlockRewards_altair _ _ Hfork).
  apply bind_Ok. rewrite computeBlockAttestationRewardAltair_eq, Hprocessed.
  reflexivity.
Qed.

End Failures.

(** ** When the call returns, and what it returns *)

(** X1.  The breakdown names the proposer of the block: whenever
    [computeBlockRewards] returns, [proposerIndex] of the result is
    [block.proposerIndex], whatever validators the slashings name. *)
Theorem rewards_name_the_block_proposer
    (collab : Collaborators) (block : BeaconBlock.t) (state : BeaconState.t)
    (rewards : BlockRewards.t) (state' : BeaconState.t) :
  computeBlockRewards block state = (Ok rewards, state') ->
  BlockRewards.proposerIndex rewards = BeaconBlock.proposerIndex block.
Proof.
  intros H. apply computeBlockRewards_Ok_inv in H. destruct H as [_ [_ Hrest]].
  apply afterAttestations_Ok_inv in Hrest.
  destruct Hrest as [_ [proposer [attester [_ [_ ->]]]]]. reflexivity.
Qed.

Lemma rewards_name_the_block_proposer_witness :
  BlockRewards.proposerIndex Example.rewards = BeaconBlock.proposerIndex Example.block.
Proof.
  apply (rewards_name_the_block_proposer
           Example.collaborators Example.block Example.state
           Example.rewards (Example.stateWith 15)).
  vm_compute. reflexivity.
Defined.

(** X2.  The call returns as soon as nothing can throw: on a fork after
    phase0, when attestation processing returns and every validator named
    by a proposer slashing or returned by [getAttesterSlashableIndices] can
    be read in the state it leaves, [computeBlockRewards] returns the
    breakdown made of the accumulator, the sync aggregate reward and the two
    sums of floored quotients, and leaves that same state. *)
Theorem computeBlockRewards_returns_when_lookups_succeed
    (collab : Collaborators) (block : BeaconBlock.t) (state state1 : BeaconState.t)
    (proposerBalances : list Z) (attesterBalances : list (list Z)) :
  ChainForkConfig.getForkName (BeaconState.config state) (BeaconBlock.slot block) <> phase0 ->
  processAttestationsAltair
    (ChainForkConfig.getForkSeq (BeaconState.config state) (BeaconBlock.slot block))
    state (BeaconBlockBody.attestations (BeaconBlock.body block)) false
  = (Ok tt, state1) ->
  Forall2
    (fun proposerSlashing B =>
       effectiveBalanceOf state1
         (BeaconBlockHeader.proposerIndex
            (SignedBeaconBlockHeader.message
               (ProposerSlashing.signedHeader1 proposerSlashing))) B)
    (BeaconBlockBody.proposerSlashings (BeaconBlock.body block)) proposerBalances ->
  Forall2
    (fun attesterSlashing Bs =>
       Forall2 (effectiveBalanceOf state1)
         (getAttesterSlashableIndices attesterSlashing) Bs)
    (BeaconBlockBody.attesterSlashings (BeaconBlock.body block)) attesterBalances ->
  let attestations := RewardCache.attestations (BeaconState.proposerRewards state1) in
  let syncAggregate := expectedSyncAggregateReward block state1 in
  let proposerSlashings :=
    Zsum (map (fun B => B / WHISTLEBLOWER_REWARD_QUOTIENT) proposerBalances) in
  let attesterSlashings :=
    Zsum (map (fun Bs => Zsum (map (fun B => B / WHISTLEBLOWER_REWARD_QUOTIENT) Bs))
            attesterBalances) in
  computeBlockRewards block state =
  (Ok {| BlockRewards.proposerIndex := BeaconBlock.proposerIndex block;
         BlockRewards.total :=
           attestations + syncAggregate + proposerSlashings + attesterSlashings;
         BlockRewards.attestations := attestations;
         BlockRewards.syncAggregate := syncAggregate;
         BlockRewards.proposerSlashings := proposerSlashings;
         BlockRewards.attesterSlashings := attesterSlashings |},
   state1).
Proof.
  intros Hfork Hprocessed Hproposer Hattester. cbv zeta.
  apply (computeBlockRewards_Ok block state state1 _ _ Hfork Hprocessed).
  - rewrite computeBlockProposerSlashingReward_loop.
    apply (whistleblowerLoop_Ok WHISTLEBLOWER_REWARD_QUOTIENT
             offendingProposerIndexOf state1 _ proposerBalances 0 Hproposer).
  - rewrite computeBlockAttesterSlashingReward_loop.
    apply (nestedLoop_Ok WHISTLEBLOWER_REWARD_QUOTIENT
             getAttesterSlashableIndices state1 _ attesterBalances 0 Hattester).
Qed.

Lemma computeBlockRewards_returns_when_lookups_succeed_witness :
  fst (@computeBlockRewards Example.collaborators Example.block Example.state)
  = Ok Example.rewards.
Proof.
  rewrite (computeBlockRewards_returns_when_lookups_succeed
             Example.collaborators Example.block Example.state (Example.stateWith 15)
             [17000000123; 32000000000; 17000000123]
             [[31000000000; 17000000123]; [0]]).
  - vm_compute. reflexivity.
  - simpl. intros E. discriminate E.
  - vm_compute. reflexivity.
  - repeat constructor; concrete_balance.
  - repeat constructor; concrete_balance.
Defined.

(** ** When the call fails, and why *)

(** X3.  A call fails for one of three reasons only, and the state it
    leaves tells which: the block is on phase0 (the error is the
    unsupported-fork error, the state is untouched); attestation processing
    threw (its error, the state as it left it); or attestation processing
    returned and reading a validator threw, the validator being named by a
    proposer slashing or returned by [getAttesterSlashableIndices] (the
    error of the view, the state as attestation processing left it). *)
Theorem computeBlockRewards_failure_causes
    (collab : Collaborators) (block : BeaconBlock.t) (state : BeaconState.t)
    (e : JsError) (state' : BeaconState.t) :
  computeBlockRewards block state = (Throw e, state') ->
  let fork :=
    ChainForkConfig.getForkName (BeaconState.config state) (BeaconBlock.slot block) in
  let processed :=
    processAttestationsAltair
      (ChainForkConfig.getForkSeq (BeaconState.config state) (BeaconBlock.slot block))
      state (BeaconBlockBody.attestations (BeaconBlock.body block)) false in
  (fork = phase0 /\ e = Error unsupportedForkMessage /\ state' = state) \/
  (fork <> phase0 /\ processed = (Throw e, state')) \/
  (fork <> phase0 /\ fst processed = Ok tt /\ snd processed = state' /\
   exists index,
     (In index
        (map (fun proposerSlashing =>
                BeaconBlockHeader.proposerIndex
                  (SignedBeaconBlockHeader.message
                     (ProposerSlashing.signedHeader1 proposerSlashing)))
           (BeaconBlockBody.proposerSlashings (BeaconBlock.body block))) \/
      In index
        (flat_map getAttesterSlashableIndices
           (BeaconBlockBody.attesterSlashings (BeaconBlock.body block)))) /\
     ValidatorsView.get (BeaconState.validators state') index = Throw e).
Proof.
  intros H fork processed.
  destruct (ForkName_eqb fork phase0) eqn:Hfork.
  - left. apply ForkName_eqb_eq in Hfork.
    rewrite (computeBlockRewards_phase0 _ _ Hfork) in H. injection H as <- <-.
    repeat split. exact Hfork.
  - right. apply ForkName_eqb_neq in Hfork.
    rewrite (computeBlockRewards_altair _ _ Hfork) in H.
    unfold bind in H. rewrite computeBlockAttestationRewardAltair_eq in H.
    fold processed in H. destruct processed as [[[] | e1] state1].
    + right. apply afterAttestations_Throw_inv in H. destruct H as [-> Hcause].
      split; [exact Hfork |]. split; [reflexivity |]. split; [reflexivity |].
      destruct Hcause as [Hproposer | Hattester].
      * rewrite computeBlockProposerSlashingReward_loop in Hproposer.
        apply whistleblowerLoop_Throw_inv in Hproposer.
        destruct Hproposer as [_ [proposerSlashing [Hin Hget]]].
        exists (offendingProposerIndexOf proposerSlashing). split; [left | exact Hget].
        apply (in_map offendingProposerIndexOf). exact Hin.
      * rewrite computeBlockAttesterSlashingReward_flat in Hattester.
        apply whistleblowerLoop_Throw_inv in Hattester.
        destruct Hattester as [_ [index [Hin Hget]]].
        exists index. split; [right; exact Hin | exact Hget].
    + left. injection H as -> ->. split; [exact Hfork | reflexivity].
Qed.

Lemma computeBlockRewards_failure_causes_witness :
  exists index,
    ValidatorsView.get (BeaconState.validators (Example.stateWith 5)) index
    = Throw (Error "validator index out of range").
Proof.
  destruct (computeBlockRewards_failure_causes
              Example.collaborators ExampleFailures.proposerFails Example.state
              (Error "validator index out of range") (Example.stateWith 5))
    as [[Hfork _] | [[_ Hprocessed] | [_ [_ [_ [index [_ Hget]]]]]]].
  - vm_compute. reflexivity.
  - discriminate Hfork.
  - discriminate Hprocessed.
  - exists index. exact Hget.
Defined.

(** X4.  An unreadable validator in a proposer slashing fails the call: on
    a fork after phase0, once attestation processing has returned, if the
    validators of the slashings before some slashing can be read and the
    one it names cannot, [computeBlockRewards] throws the error of that
    read, whatever the later slashings and the attester slashings hold; the
    state keeps what attestation processing wrote. *)
Theorem proposer_lookup_failure_fails_the_call
    (collab : Collaborators) (block : BeaconBlock.t) (state state1 : BeaconState.t)
    (before after : list ProposerSlashing.t) (failing : ProposerSlashing.t)
    (balances : list Z) (e : JsError) :
  ChainForkConfig.getForkName (BeaconState.config state) (BeaconBlock.slot block) <> phase0 ->
  processAttestationsAltair
    (ChainForkConfig.getForkSeq (BeaconState.config state) (BeaconBlock.slot block))
    state (BeaconBlockBody.attestations (BeaconBlock.body block)) false
  = (Ok tt, state1) ->
  BeaconBlockBody.proposerSlashings (BeaconBlock.body block)
  = before ++ failing :: after ->
  Forall2
    (fun proposerSlashing B =>
       effectiveBalanceOf state1
         (BeaconBlockHeader.proposerIndex
            (SignedBeaconBlockHeader.message
               (ProposerSlashing.signedHeader1 proposerSlashing))) B)
    before balances ->
  ValidatorsView.get (BeaconState.validators state1)
    (BeaconBlockHeader.proposerIndex
       (SignedBeaconBlockHeader.message (ProposerSlashing.signedHeader1 failing)))
  = Throw e ->
  computeBlockRewards block state = (Throw e, state1).
Proof.
  intros Hfork Hprocessed Hslashings Hbefore Hget.
  rewrite (computeBlockRewards_after _ _ _ Hfork Hprocessed).
  apply afterAttestations_proposer_Throw.
  rewrite computeBlockProposerSlashingReward_loop, Hslashings.
  apply (whistleblowerLoop_Throw WHISTLEBLOWER_REWARD_QUOTIENT offendingProposerIndexOf
           state1 before failing after balances e 0 Hbefore Hget).
Qed.

Lemma proposer_lookup_failure_fails_the_call_witness :
  @computeBlockRewards Example.collaborators ExampleFailures.proposerFails Example.state
  = (Throw (Error "validator index out of range"), Example.stateWith 5).
Proof.
  apply (proposer_lookup_failure_fails_the_call
           Example.collaborators ExampleFailures.proposerFails Example.state
           (Example.stateWith 5)
           [Example.proposerSlashing 2%nat] [Example.proposerSlashing 0%nat]
           (Example.proposerSlashing 9%nat) [17000000123]).
  - simpl. intros E. discriminate E.
  - vm_compute. reflexivity.
  - reflexivity.
  - repeat constructor; concrete_balance.
  - reflexivity.
Defined.

(** X5.  An unreadable validator in an attester slashing fails the call
    too, but only after every proposer slashing has been read: on a fork
    after phase0, once attestation processing has returned and all proposer
    slashings name readable validators, if, in the slashable indices of the
    attester slashings taken in order, those before some index can be read
    and that index cannot, [computeBlockRewards] throws the error of that
    read and the state keeps what attestation processing wrote. *)
Theorem attester_lookup_failure_fails_the_call
    (collab : Collaborators) (block : BeaconBlock.t) (state state1 : BeaconState.t)
    (proposerBalances : list Z)
    (before after : list ValidatorIndex) (failing : ValidatorIndex)
    (balances : list Z) (e : JsError) :
  ChainForkConfig.getForkName (BeaconState.config state) (BeaconBlock.slot block) <> phase0 ->
  processAttestationsAltair
    (ChainForkConfig.getForkSeq (BeaconState.config state) (BeaconBlock.slot block))
    state (BeaconBlockBody.attestations (BeaconBlock.body block)) false
  = (Ok tt, state1) ->
  Forall2
    (fun proposerSlashing B =>
       effectiveBalanceOf state1
         (BeaconBlockHeader.proposerIndex
            (SignedBeaconBlockHeader.message
               (ProposerSlashing.signedHeader1 proposerSlashing))) B)
    (BeaconBlockBody.proposerSlashings (BeaconBlock.body block)) proposerBalances ->
  flat_map getAttesterSlashableIndices
    (BeaconBlockBody.attesterSlashings (BeaconBlock.body block))
  = before ++ failing :: after ->
  Forall2 (effectiveBalanceOf state1) before balances ->
  ValidatorsView.get (BeaconState.validators state1) failing = Throw e ->
  computeBlockRewards block state = (Throw e, state1).
Proof.
  intros Hfork Hprocessed Hproposer Hindices Hbefore Hget.
  rewrite (computeBlockRewards_after _ _ _ Hfork Hprocessed).
  eapply afterAttestations_attester_Throw.
  - rewrite computeBlockProposerSlashingReward_loop.
    apply (whistleblowerLoop_Ok WHISTLEBLOWER_REWARD_QUOTIENT
             offendingProposerIndexOf state1 _ proposerBalances 0 Hproposer).
  - rewrite computeBlockAttesterSlashingReward_flat, Hindices.
    apply (whistleblowerLoop_Throw WHISTLEBLOWER_REWARD_QUOTIENT (fun i => i)
             state1 before failing after balances e 0 Hbefore Hget).
Qed.

Lemma attester_lookup_failure_fails_the_call_witness :
  @computeBlockRewards Example.collaborators ExampleFailures.attesterFails Example.state
  = (Throw (Error "validator index out of range"), Example.stateWith 5).
Proof.
  apply (attester_lookup_failure_fails_the_call
           Example.collaborators ExampleFailures.attesterFails Example.state
           (Example.stateWith 5) [17000000123]
           [1; 0; 3]%nat [] 7%nat [31000000000; 32000000000; 0]).
  - simpl. intros E. discriminate E.
  - vm_compute. reflexivity.
  - repeat constructor; concrete_balance.
  - reflexivity.
  - repeat constructor; concrete_balance.
  - reflexivity.
Defined.

(** ** How the slashing rewards compose *)

Lemma outcome_of_readonly {A} (m : M A) state a :
  readonly m -> fst (m state) = Ok a -> m state = (Ok a, state).
Proof.
  intros Hreadonly H. specialize (Hreadonly state).
  destruct (m state) as [o state1]. simpl in *. subst. reflexivity.
Qed.

Lemma Forall2_app_balances {A} (R : A -> Z -> Prop) xs ys l1 l2 :
  Forall2 R xs l1 -> Forall2 R ys l2 -> Forall2 R (xs ++ ys) (l1 ++ l2).
Proof. intros H1 H2. induction H1; simpl; [exact H2 | constructor; assumption]. Qed.

Lemma Zsum_concat_quotients quotient (balances : list (list Z)) :
  Zsum (map (fun Bs => Zsum (map (fun B => B / quotient) Bs)) balances)
  = Zsum (map (fun B => B / quotient) (List.concat balances)).
Proof.
  induction balances as [| Bs rest IH]; simpl; [reflexivity |].
  rewrite map_app, Zsum_app, IH. reflexivity.
Qed.

Lemma floor_sum_bounds quotient (balances : list Z) :
  0 < quotient ->
  quotient * Zsum (map (fun B => B / quotient) balances) <= Zsum balances
  <= quotient * Zsum (map (fun B => B / quotient) balances)
     + (quotient - 1) * Z.of_nat (List.length balances).
Proof.
  intros Hquotient. induction balances as [| B rest IH].
  - simpl. lia.
  - pose proof (Zdiv_is_floor B quotient Hquotient) as HB.
    cbn [map Zsum List.length]. rewrite Nat2Z.inj_succ.
    rewrite Z.mul_add_distr_l, Z.mul_succ_r. lia.
Qed.

(** X6.  The attester slashing reward depends on the attester slashings
    only through the list of all their slashable indices, taken in order:
    two blocks for which [getAttesterSlashableIndices] gives, slashing after
    slashing, the same indices overall have the same reward, or the same
    error, however the indices are spread over the slashings. *)
Theorem attester_reward_depends_on_flattened_indices
    (collab : Collaborators) (block1 block2 : BeaconBlock.t) (state : BeaconState.t) :
  flat_map getAttesterSlashableIndices
    (BeaconBlockBody.attesterSlashings (BeaconBlock.body block1))
  = flat_map getAttesterSlashableIndices
      (BeaconBlockBody.attesterSlashings (BeaconBlock.body block2)) ->
  computeBlockAttesterSlashingReward block1 state
  = computeBlockAttesterSlashingReward block2 state.
Proof.
  intros H. rewrite !computeBlockAttesterSlashingReward_flat, H. reflexivity.
Qed.

Lemma attester_reward_depends_on_flattened_indices_witness :
  @computeBlockAttesterSlashingReward Example.collaborators
    (ExampleFailures.blockWith []
       [Example.attesterSlashing [0; 1]%nat [1; 0]%nat;
        Example.attesterSlashing [3]%nat [3]%nat])
    Example.state
  = @computeBlockAttesterSlashingReward Example.collaborators
      (ExampleFailures.blockWith []
         [Example.attesterSlashing [0; 1; 3]%nat [1; 0; 3]%nat])
      Example.state.
Proof.
  apply (attester_reward_depends_on_flattened_indices Example.collaborators).
  reflexivity.
Defined.

(** X7.  Proposer slashing rewards add up: when the proposer slashings of
    a block are those of a first block followed by those of a second, and
    the calculator returns on each of the two, it returns on the block the
    sum of the two rewards. *)
Theorem proposer_reward_of_concatenated_slashings
    (collab : Collaborators) (block block1 block2 : BeaconBlock.t)
    (state : BeaconState.t) (reward1 reward2 : SubRewardValue) :
  BeaconBlockBody.proposerSlashings (BeaconBlock.body block)
  = BeaconBlockBody.proposerSlashings (BeaconBlock.body block1)
    ++ BeaconBlockBody.proposerSlashings (BeaconBlock.body block2) ->
  fst (computeBlockProposerSlashingReward block1 state) = Ok reward1 ->
  fst (computeBlockProposerSlashingReward block2 state) = Ok reward2 ->
  computeBlockProposerSlashingReward block state = (Ok (reward1 + reward2), state).
Proof.
  intros Hslashings H1 H2.
  apply outcome_of_readonly in H1; [| apply readonly_computeBlockProposerSlashingReward].
  apply outcome_of_readonly in H2; [| apply readonly_computeBlockProposerSlashingReward].
  rewrite computeBlockProposerSlashingReward_loop in *.
  apply whistleblowerLoop_Ok_inv in H1. destruct H1 as [_ [balances1 [Hall1 ->]]].
  apply whistleblowerLoop_Ok_inv in H2. destruct H2 as [_ [balances2 [Hall2 ->]]].
  rewrite Hslashings.
  rewrite (whistleblowerLoop_Ok WHISTLEBLOWER_REWARD_QUOTIENT offendingProposerIndexOf
             state _ (balances1 ++ balances2) 0
             (Forall2_app_balances _ _ _ _ _ Hall1 Hall2)).
  rewrite map_app, Zsum_app. reflexivity.
Qed.

Lemma proposer_reward_of_concatenated_slashings_witness :
  @computeBlockProposerSlashingReward Example.collaborators
    (ExampleFailures.blockWith
       [Example.proposerSlashing 2%nat; Example.proposerSlashing 0%nat;
        Example.proposerSlashing 1%nat] [])
    Example.state
  = (Ok (95703125 + 60546875), Example.state).
Proof.
  apply (proposer_reward_of_concatenated_slashings Example.collaborators
           _
           (ExampleFailures.blockWith
              [Example.proposerSlashing 2%nat; Example.proposerSlashing 0%nat] [])
           (ExampleFailures.blockWith [Example.proposerSlashing 1%nat] [])).
  - reflexivity.
  - vm_compute. reflexivity.
  - vm_compute. reflexivity.
Defined.

(** X8.  What flooring loses: with a positive quotient [Q], each slashing
    reward [r] of a returned breakdown, over the [n] balances it was
    computed from, satisfies [Q * r <= sum of the balances <= Q * r + (Q - 1) * n].
    The proposer is never paid more than the [Q]-th part of the offending
    balances, and less than one unit short of it per slashed validator. *)
Theorem slashing_rewards_bounded_by_balances
    (collab : Collaborators) (block : BeaconBlock.t) (state : BeaconState.t)
    (rewards : BlockRewards.t) (state' : BeaconState.t)
    (proposerBalances : list Z) (attesterBalances : list (list Z)) :
  0 < WHISTLEBLOWER_REWARD_QUOTIENT ->
  computeBlockRewards block state = (Ok rewards, state') ->
  Forall2
    (fun proposerSlashing B =>
       effectiveBalanceOf state'
         (BeaconBlockHeader.proposerIndex
            (SignedBeaconBlockHeader.message
               (ProposerSlashing.signedHeader1 proposerSlashing))) B)
    (BeaconBlockBody.proposerSlashings (BeaconBlock.body block)) proposerBalances ->
  Forall2
    (fun attesterSlashing Bs =>
       Forall2 (effectiveBalanceOf state')
         (getAttesterSlashableIndices attesterSlashing) Bs)
    (BeaconBlockBody.attesterSlashings (BeaconBlock.body block)) attesterBalances ->
  let Q := WHISTLEBLOWER_REWARD_QUOTIENT in
  (Q * BlockRewards.proposerSlashings rewards <= Zsum proposerBalances
   <= Q * BlockRewards.proposerSlashings rewards
      + (Q - 1) * Z.of_nat (List.length proposerBalances)) /\
  (Q * BlockRewards.attesterSlashings rewards <= Zsum (List.concat attesterBalances)
   <= Q * BlockRewards.attesterSlashings rewards
      + (Q - 1) * Z.of_nat (List.length (List.concat attesterBalances))).
Proof.
  intros Hquotient Hcall Hproposer Hattester Q.
  apply computeBlockRewards_Ok_inv in Hcall. destruct Hcall as [_ [_ Hrest]].
  apply afterAttestations_Ok_inv in Hrest.
  destruct Hrest as [_ [proposer [attester [Hp [Ha ->]]]]].
  cbn [BlockRewards.proposerSlashings BlockRewards.attesterSlashings].
  rewrite computeBlockProposerSlashingReward_loop in Hp.
  rewrite (whistleblowerLoop_Ok WHISTLEBLOWER_REWARD_QUOTIENT offendingProposerIndexOf
             state' _ proposerBalances 0 Hproposer) in Hp.
  injection Hp as <-.
  rewrite computeBlockAttesterSlashingReward_loop in Ha.
  rewrite (nestedLoop_Ok WHISTLEBLOWER_REWARD_QUOTIENT getAttesterSlashableIndices
             state' _ attesterBalances 0 Hattester) in Ha.
  injection Ha as <-.
  rewrite Zsum_concat_quotients. rewrite ?Z.add_0_l.
  split; apply floor_sum_bounds; exact Hquotient.
Qed.

Lemma slashing_rewards_bounded_by_balances_witness :
  512 * 128906250 <= 17000000123 + 32000000000 + 17000000123
  <= 512 * 128906250 + 511 * 3.
Proof.
  destruct (slashing_rewards_bounded_by_balances
              Example.collaborators Example.block Example.state
              Example.rewards (Example.stateWith 15)
              [17000000123; 32000000000; 17000000123]
              [[31000000000; 17000000123]; [0]]) as [Hproposer _].
  - reflexivity.
  - vm_compute. reflexivity.
  - repeat constructor; concrete_balance.
  - repeat constructor; concrete_balance.
  - exact Hproposer.
Defined.

(** X9.  The proposer slashing calculator reads no more of a slashing than
    the proposer index of its first signed header: two blocks whose proposer
    slashings agree, one by one, on that index have the same reward, or the
    same error, whatever their second headers and their slots are. *)
Theorem proposer_reward_reads_only_first_header
    (collab : Collaborators) (block1 block2 : BeaconBlock.t) (state : BeaconState.t) :
  map (fun proposerSlashing =>
         BeaconBlockHeader.proposerIndex
           (SignedBeaconBlockHeader.message
              (ProposerSlashing.signedHeader1 proposerSlashing)))
    (BeaconBlockBody.proposerSlashings (BeaconBlock.body block1))
  = map (fun proposerSlashing =>
           BeaconBlockHeader.proposerIndex
             (SignedBeaconBlockHeader.message
                (ProposerSlashing.signedHeader1 proposerSlashing)))
      (BeaconBlockBody.proposerSlashings (BeaconBlock.body block2)) ->
  computeBlockProposerSlashingReward block1 state
  = computeBlockProposerSlashingReward block2 state.
Proof.
  intros H. rewrite !computeBlockProposerSlashingReward_loop.
  change (whistleblowerStep WHISTLEBLOWER_REWARD_QUOTIENT offendingProposerIndexOf)
    with (fun reward proposerSlashing =>
            whistleblowerStep WHISTLEBLOWER_REWARD_QUOTIENT (fun i : ValidatorIndex => i)
              reward (offendingProposerIndexOf proposerSlashing)).
  rewrite !(for_of_map offendingProposerIndexOf).
  unfold offendingProposerIndexOf. rewrite H. reflexivity.
Qed.

Lemma proposer_reward_reads_only_first_header_witness :
  @computeBlockProposerSlashingReward Example.collaborators
    (ExampleFailures.blockWith [ExampleFailures.mixedSlashing 2%nat 0%nat] []) Example.state
  = @computeBlockProposerSlashingReward Example.collaborators
      (ExampleFailures.blockWith [ExampleFailures.mixedSlashing 2%nat 9%nat] []) Example.state.
Proof.
  apply (proposer_reward_reads_only_first_header Example.collaborators).
  reflexivity.
Defined.

(** ** The sync aggregate reward, at its edges *)

Lemma popcount_le_length (bits : BitArray.t) :
  (BitArray.popcount bits <= List.length bits)%nat.
Proof.
  unfold BitArray.popcount.
  induction bits as [| b rest IH]; simpl; [lia |].
  destruct b; simpl; lia.
Qed.

Lemma popcount_all_set (bits : BitArray.t) :
  forallb (fun b => b) bits = true -> BitArray.popcount bits = List.length bits.
Proof.
  unfold BitArray.popcount.
  induction bits as [| b rest IH]; simpl; [reflexivity |].
  destruct b; simpl; intros H; [rewrite (IH H); reflexivity | discriminate H].
Qed.

(** X10.  The floor is there for safety only: when [syncProposerReward] is
    an integer [n], as the source expects it to be, the sync aggregate
    reward is the number of set participation bits times [n]. *)
Theorem sync_reward_with_integer_constant
    (block : BeaconBlock.t) (state : BeaconState.t)
    (syncAggregate : SyncAggregate.t) (n : Z) :
  BeaconBlockBody.syncAggregate (BeaconBlock.body block) = Some syncAggregate ->
  (EpochCache.syncProposerReward (BeaconState.epochCtx state) == inject_Z n)%Q ->
  computeSyncAggregateReward block state =
  (Ok (Z.of_nat (BitArray.popcount (SyncAggregate.syncCommitteeBits syncAggregate)) * n),
   state).
Proof.
  intros Hsome Hinteger.
  rewrite computeSyncAggregateReward_eq. unfold expectedSyncAggregateReward.
  rewrite Hsome, (Qfloor_comp _ _ Hinteger), Qfloor_Z. reflexivity.
Qed.

Lemma sync_reward_with_integer_constant_witness :
  computeSyncAggregateReward Example.block ExampleFailures.integerRewardState
  = (Ok (3 * 4), ExampleFailures.integerRewardState).
Proof.
  apply (sync_reward_with_integer_constant
           Example.block ExampleFailures.integerRewardState
           {| SyncAggregate.syncCommitteeBits := [true; false; true; true] |} 4).
  - reflexivity.
  - reflexivity.
Defined.

(** X11.  With a sync proposer reward [r] that is not negative, the sync
    aggregate reward of a block that carries a sync aggregate lies between 0
    and the number of committee seats times [floor r], and it reaches that
    bound when every participation bit is set. *)
Theorem sync_reward_bounded_by_committee_size
    (block : BeaconBlock.t) (state : BeaconState.t) (syncAggregate : SyncAggregate.t) :
  BeaconBlockBody.syncAggregate (BeaconBlock.body block) = Some syncAggregate ->
  (0 <= EpochCache.syncProposerReward (BeaconState.epochCtx state))%Q ->
  let seats := Z.of_nat (List.length (SyncAggregate.syncCommitteeBits syncAggregate)) in
  let r := EpochCache.syncProposerReward (BeaconState.epochCtx state) in
  exists reward,
    computeSyncAggregateReward block state = (Ok reward, state) /\
    0 <= reward <= seats * Qfloor r /\
    (forallb (fun b => b) (SyncAggregate.syncCommitteeBits syncAggregate) = true ->
     reward = seats * Qfloor r).
Proof.
  intros Hsome Hr seats r.
  rewrite computeSyncAggregateReward_eq. unfold expectedSyncAggregateReward.
  rewrite Hsome. eexists. split; [reflexivity |].
  pose proof (Math_floor_nonneg _ Hr) as Hfloor. unfold Math_floor in Hfloor.
  fold r in Hfloor |- *.
  pose proof (popcount_le_length (SyncAggregate.syncCommitteeBits syncAggregate)) as Hle.
  split.
  - split.
    + apply Z.mul_nonneg_nonneg; lia.
    + apply Z.mul_le_mono_nonneg_r; [exact Hfloor | unfold seats; lia].
  - intros Hall. rewrite (popcount_all_set _ Hall). reflexivity.
Qed.

Lemma sync_reward_bounded_by_committee_size_witness :
  exists reward,
    computeSyncAggregateReward Example.block Example.state = (Ok reward, Example.state) /\
    0 <= reward <= 4 * 3.
Proof.
  destruct (sync_reward_bounded_by_committee_size Example.block Example.state
              {| SyncAggregate.syncCommitteeBits := [true; false; true; true] |})
    as [reward [Hcall [Hbound _]]].
  - reflexivity.
  - simpl. unfold Qle. simpl. lia.
  - exists reward. split; [exact Hcall | exact Hbound].
Defined.
